(** * go-netgear: authentication, token store and model registry

    A shallow embedding of the Go sources of the authentication core
    (credential codec, response classifier, model detection, endpoint
    registry, token stores) together with the properties proved about
    them.

    Go strings are byte strings; they are embedded as [string], whose
    characters are the 256 byte values.  Go's [len] is [String.length]
    and indexing [s[i]] is [String.get]. *)

From Stdlib Require Import ZArith Ascii String List Bool Lia DecimalString.
From stdpp Require Import base option gmap strings.
Import ListNotations.

Local Open Scope string_scope.
Local Open Scope Z_scope.

(** ** Bytes *)

Definition byte_of (c : ascii) : Z := Z.of_N (N_of_ascii c).
Definition ascii_of (b : Z) : ascii := ascii_of_N (Z.to_N (b mod 256)).

Fixpoint bytes_of_string (s : string) : list Z :=
  match s with
  | EmptyString => []
  | String c s' => byte_of c :: bytes_of_string s'
  end.

Fixpoint string_of_bytes (l : list Z) : string :=
  match l with
  | [] => EmptyString
  | b :: l' => String (ascii_of b) (string_of_bytes l')
  end.

(** ** Package strings of the Go library, as far as the sources use it *)

Module GoStrings.

(** [s[i:]] *)
Fixpoint skip (i : nat) (s : string) : string :=
  match i, s with
  | O, _ => s
  | S _, EmptyString => EmptyString
  | S i', String _ s' => skip i' s'
  end.

(** [strings.HasPrefix(s, prefix)] *)
Fixpoint HasPrefix (s prefix : string) : bool :=
  match prefix, s with
  | EmptyString, _ => true
  | String _ _, EmptyString => false
  | String a p', String b s' => if Ascii.eqb a b then HasPrefix s' p' else false
  end.

(** [strings.Contains(s, substr)]: [substr] occurs at some offset of [s]. *)
Fixpoint Contains (s substr : string) : bool :=
  HasPrefix s substr ||
  match s with
  | EmptyString => false
  | String _ s' => Contains s' substr
  end.

(** [strings.Split(s, sep)] for a separator of one byte, the only kind
    the sources split on ([":"] and ["?"]). *)
Fixpoint Split (s : string) (sep : ascii) : list string :=
  match s with
  | EmptyString => [EmptyString]
  | String c s' =>
      if Ascii.eqb c sep then EmptyString :: Split s' sep
      else match Split s' sep with
           | [] => [String c EmptyString]
           | hd :: tl => String c hd :: tl
           end
  end.

(** [strings.SplitN(s, sep, 2)] for a separator of one byte: the text
    before the first separator and everything after it, or [s] alone
    when it holds no separator. *)
Fixpoint SplitN2 (s : string) (sep : ascii) : list string :=
  match s with
  | EmptyString => [EmptyString]
  | String c s' =>
      if Ascii.eqb c sep then [EmptyString; s']
      else match SplitN2 s' sep with
           | hd :: tl => String c hd :: tl
           | [] => [String c EmptyString]
           end
  end.

End GoStrings.

(** ** Packages unicode/utf8 and unicode, as far as [strings.TrimSpace]
    needs them *)

Module utf8.

Definition RuneError : Z := 65533.
Definition RuneSelf : Z := 128.
Definition UTFMax : nat := 4.

(** The table [first] with [acceptRanges]: for a leading byte, the
    length of the sequence and the range of its second byte; [None]
    for a byte that starts no sequence. *)
Definition first (s0 : Z) : option (nat * Z * Z) :=
  if (194 <=? s0) && (s0 <=? 223) then Some (2%nat, 128, 191)
  else if s0 =? 224 then Some (3%nat, 160, 191)
  else if (225 <=? s0) && (s0 <=? 236) then Some (3%nat, 128, 191)
  else if s0 =? 237 then Some (3%nat, 128, 159)
  else if (238 <=? s0) && (s0 <=? 239) then Some (3%nat, 128, 191)
  else if s0 =? 240 then Some (4%nat, 144, 191)
  else if (241 <=? s0) && (s0 <=? 243) then Some (4%nat, 128, 191)
  else if s0 =? 244 then Some (4%nat, 128, 143)
  else None.

Definition continuation (b : Z) : bool := (128 <=? b) && (b <=? 191).

(** [utf8.DecodeRuneInString]: the first rune of [s] and its width. *)
Definition DecodeRuneInString (s : string) : Z * nat :=
  match s with
  | EmptyString => (RuneError, 0%nat)
  | String c0 t0 =>
      let s0 := byte_of c0 in
      if s0 <? RuneSelf then (s0, 1%nat)
      else
        match first s0 with
        | None => (RuneError, 1%nat)
        | Some (sz, lo, hi) =>
            if (String.length s <? sz)%nat then (RuneError, 1%nat)
            else
              match t0 with
              | EmptyString => (RuneError, 1%nat)
              | String c1 t1 =>
                  let s1 := byte_of c1 in
                  if (s1 <? lo) || (hi <? s1) then (RuneError, 1%nat)
                  else if (sz <=? 2)%nat then
                    (Z.lor (Z.shiftl (Z.land s0 31) 6) (Z.land s1 63), 2%nat)
                  else
                    match t1 with
                    | EmptyString => (RuneError, 1%nat)
                    | String c2 t2 =>
                        let s2 := byte_of c2 in
                        if negb (continuation s2) then (RuneError, 1%nat)
                        else if (sz <=? 3)%nat then
                          (Z.lor (Z.lor (Z.shiftl (Z.land s0 15) 12)
                                        (Z.shiftl (Z.land s1 63) 6))
                                 (Z.land s2 63), 3%nat)
                        else
                          match t2 with
                          | EmptyString => (RuneError, 1%nat)
                          | String c3 _ =>
                              let s3 := byte_of c3 in
                              if negb (continuation s3) then (RuneError, 1%nat)
                              else
                                (Z.lor (Z.lor (Z.lor
                                   (Z.shiftl (Z.land s0 7) 18)
                                   (Z.shiftl (Z.land s1 63) 12))
                                   (Z.shiftl (Z.land s2 63) 6))
                                   (Z.land s3 63), 4%nat)
                          end
                    end
              end
        end
  end.

Definition RuneStart (b : Z) : bool := negb (Z.land b 192 =? 128).

Definition byte_at (s : string) (i : Z) : Z :=
  match String.get (Z.to_nat i) s with
  | Some c => byte_of c
  | None => 0
  end.

(** [for start--; start >= lim; start-- { if RuneStart(s[start]) { break } }],
    entered after the decrement. *)
Fixpoint back (fuel : nat) (s : string) (lim start : Z) : Z :=
  match fuel with
  | O => start
  | S fuel' =>
      if start <? lim then start
      else if RuneStart (byte_at s start) then start
      else back fuel' s lim (start - 1)
  end.

(** [utf8.DecodeLastRuneInString]: the last rune of [s] and its width. *)
Definition DecodeLastRuneInString (s : string) : Z * nat :=
  let end_ := Z.of_nat (String.length s) in
  if end_ =? 0 then (RuneError, 0%nat)
  else
    let start := end_ - 1 in
    let r := byte_at s start in
    if r <? RuneSelf then (r, 1%nat)
    else
      let lim := Z.max 0 (end_ - Z.of_nat UTFMax) in
      let start := back (S UTFMax) s lim (start - 1) in
      let start := Z.max 0 start in
      let '(r, size) := DecodeRuneInString (GoStrings.skip (Z.to_nat start) s) in
      if start + Z.of_nat size =? end_ then (r, size)
      else (RuneError, 1%nat).

End utf8.

Module unicode.

(** [unicode.IsSpace] *)
Definition IsSpace (r : Z) : bool :=
  if (0 <=? r) && (r <=? 255) then
    ((9 <=? r) && (r <=? 13)) || (r =? 32) || (r =? 133) || (r =? 160)
  else
    (r =? 5760) || ((8192 <=? r) && (r <=? 8202)) || (r =? 8232)
    || (r =? 8233) || (r =? 8239) || (r =? 8287) || (r =? 12288).

End unicode.

Module GoTrim.

(** [s[:n]] *)
Fixpoint take (n : nat) (s : string) : string :=
  match n, s with
  | S n', String c s' => String c (take n' s')
  | _, _ => EmptyString
  end.

(** [strings.TrimLeftFunc(s, f)]: drop leading runes while [f] holds. *)
Fixpoint TrimLeftFunc_loop (fuel : nat) (s : string) (f : Z -> bool) : string :=
  match fuel with
  | O => EmptyString
  | S fuel' =>
      match s with
      | EmptyString => EmptyString
      | String _ _ =>
          let '(r, size) := utf8.DecodeRuneInString s in
          if f r then TrimLeftFunc_loop fuel' (GoStrings.skip size s) f
          else s
      end
  end.

Definition TrimLeftFunc (s : string) (f : Z -> bool) : string :=
  TrimLeftFunc_loop (String.length s) s f.

(** [lastIndexFunc(s, f, false)]: the offset of the last rune on which
    [f] fails, [-1] when there is none. *)
Fixpoint lastIndexFunc_loop (fuel : nat) (s : string) (f : Z -> bool) (i : nat)
  : Z :=
  match fuel with
  | O => -1
  | S fuel' =>
      match i with
      | O => -1
      | S _ =>
          let '(r, size) := utf8.DecodeLastRuneInString (take i s) in
          let i' := (i - size)%nat in
          if f r then lastIndexFunc_loop fuel' s f i'
          else Z.of_nat i'
      end
  end.

(** [strings.TrimRightFunc(s, f)] *)
Definition TrimRightFunc (s : string) (f : Z -> bool) : string :=
  let i := lastIndexFunc_loop (String.length s) s f (String.length s) in
  let i :=
    if (0 <=? i) && (utf8.RuneSelf <=? utf8.byte_at s i) then
      let '(_, wid) := utf8.DecodeRuneInString (GoStrings.skip (Z.to_nat i) s) in
      i + Z.of_nat wid
    else i + 1 in
  take (Z.to_nat i) s.

Definition TrimFunc (s : string) (f : Z -> bool) : string :=
  TrimRightFunc (TrimLeftFunc s f) f.

Definition asciiSpace (c : Z) : bool :=
  ((9 <=? c) && (c <=? 13)) || (c =? 32).

(** The second loop of [TrimSpace], over [t = s[start:]]:
    [for ; stop > start; stop-- { c := s[stop-1]; ... }]. *)
Fixpoint TrimSpace_stop (t : string) (stop : nat) : string :=
  match stop with
  | O => EmptyString
  | S k =>
      let c := utf8.byte_at t (Z.of_nat k) in
      if utf8.RuneSelf <=? c then TrimRightFunc (take stop t) unicode.IsSpace
      else if asciiSpace c then TrimSpace_stop t k
      else take stop t
  end.

(** [strings.TrimSpace]: the first loop advances [start] over ASCII
    white space and falls back to the rune-wise trim on a byte that is
    not ASCII. *)
Fixpoint TrimSpace (s : string) : string :=
  match s with
  | EmptyString => EmptyString
  | String c s' =>
      if utf8.RuneSelf <=? byte_of c then TrimFunc s unicode.IsSpace
      else if asciiSpace (byte_of c) then TrimSpace s'
      else TrimSpace_stop s (String.length s)
  end.

End GoTrim.

(** ** crypto/md5 (RFC 1321) on 32-bit words held in [Z] *)

Module md5.

Definition w32 (x : Z) : Z := x mod 2 ^ 32.
Definition not32 (x : Z) : Z := Z.lxor x 4294967295.
Definition rotl32 (x c : Z) : Z :=
  w32 (Z.lor (Z.shiftl x c) (Z.shiftr x (32 - c))).

Definition K : list Z :=
  [ 3614090360; 3905402710;  606105819; 3250441966;
    4118548399; 1200080426; 2821735955; 4249261313;
    1770035416; 2336552879; 4294925233; 2304563134;
    1804603682; 4254626195; 2792965006; 1236535329;
    4129170786; 3225465664;  643717713; 3921069994;
    3593408605;   38016083; 3634488961; 3889429448;
     568446438; 3275163606; 4107603335; 1163531501;
    2850285829; 4243563512; 1735328473; 2368359562;
    4294588738; 2272392833; 1839030562; 4259657740;
    2763975236; 1272893353; 4139469664; 3200236656;
     681279174; 3936430074; 3572445317;   76029189;
    3654602809; 3873151461;  530742520; 3299628645;
    4096336452; 1126891415; 2878612391; 4237533241;
    1700485571; 2399980690; 4293915773; 2240044497;
    1873313359; 4264355552; 2734768916; 1309151649;
    4149444226; 3174756917;  718787259; 3951481745 ].

Definition S : list Z :=
  [ 7; 12; 17; 22; 7; 12; 17; 22; 7; 12; 17; 22; 7; 12; 17; 22;
    5;  9; 14; 20; 5;  9; 14; 20; 5;  9; 14; 20; 5;  9; 14; 20;
    4; 11; 16; 23; 4; 11; 16; 23; 4; 11; 16; 23; 4; 11; 16; 23;
    6; 10; 15; 21; 6; 10; 15; 21; 6; 10; 15; 21; 6; 10; 15; 21 ].

Definition state : Type := Z * Z * Z * Z.

Definition init : state := (1732584193, 4023233417, 2562383102, 271733878).

(** One of the 64 steps of a block. *)
Definition step (M : list Z) (st : state) (i : nat) : state :=
  let '(a, b, c, d) := st in
  let iz := Z.of_nat i in
  let '(f, g) :=
    if iz <? 16 then (Z.lor (Z.land b c) (Z.land (not32 b) d), iz)
    else if iz <? 32 then
      (Z.lor (Z.land d b) (Z.land (not32 d) c), (5 * iz + 1) mod 16)
    else if iz <? 48 then (Z.lxor (Z.lxor b c) d, (3 * iz + 5) mod 16)
    else (Z.lxor c (Z.lor b (not32 d)), (7 * iz) mod 16) in
  let f := w32 (f + a + nth i K 0 + nth (Z.to_nat g) M 0) in
  (d, w32 (b + rotl32 f (nth i S 0)), b, c).

(** Little-endian decoding of a 64-byte block into sixteen words. *)
Fixpoint words (fuel : nat) (bs : list Z) : list Z :=
  match fuel, bs with
  | Datatypes.S n, b0 :: b1 :: b2 :: b3 :: rest =>
      (b0 + 256 * b1 + 65536 * b2 + 16777216 * b3) :: words n rest
  | _, _ => []
  end.

Definition block (st : state) (bs : list Z) : state :=
  let M := words 16 bs in
  let '(a, b, c, d) := st in
  let '(a', b', c', d') := fold_left (step M) (seq 0 64) st in
  (w32 (a + a'), w32 (b + b'), w32 (c + c'), w32 (d + d')).

Fixpoint blocks (n : nat) (st : state) (bs : list Z) : state :=
  match n with
  | O => st
  | Datatypes.S n' => blocks n' (block st (firstn 64 bs)) (skipn 64 bs)
  end.

Definition le_bytes (n : nat) (x : Z) : list Z :=
  map (fun k => (x / 256 ^ Z.of_nat k) mod 256) (seq 0 n).

(** The message, the byte 0x80, zeros up to 56 modulo 64, and the
    length in bits as eight little-endian bytes. *)
Definition pad (msg : list Z) : list Z :=
  let len := Z.of_nat (List.length msg) in
  let zeros := Z.to_nat ((55 - len) mod 64) in
  msg ++ [128] ++ repeat 0 zeros ++ le_bytes 8 ((8 * len) mod 2 ^ 64).

(** [md5.Sum(data)]: the sixteen bytes of the digest. *)
Definition Sum (data : list Z) : list Z :=
  let p := pad data in
  let '(a, b, c, d) := blocks (List.length p / 64) init p in
  le_bytes 4 a ++ le_bytes 4 b ++ le_bytes 4 c ++ le_bytes 4 d.

End md5.

(** ** fmt: the verb [%x] *)

Module fmt.

Definition hexdigit (d : Z) : ascii :=
  nth (Z.to_nat d)
    ["0"; "1"; "2"; "3"; "4"; "5"; "6"; "7";
     "8"; "9"; "a"; "b"; "c"; "d"; "e"; "f"]%char "0"%char.

(** [%x] of a byte slice or array: two lowercase digits per byte. *)
Fixpoint hex_bytes (bs : list Z) : string :=
  match bs with
  | [] => EmptyString
  | b :: bs' =>
      String (hexdigit (b / 16)) (String (hexdigit (b mod 16)) (hex_bytes bs'))
  end.

(** [%x] of an unsigned integer: lowercase digits, no leading zero. *)
Fixpoint hex_digits (fuel : nat) (n : Z) (acc : string) : string :=
  match fuel with
  | O => acc
  | S fuel' =>
      let acc := String (hexdigit (n mod 16)) acc in
      if n / 16 =? 0 then acc else hex_digits fuel' (n / 16) acc
  end.

Definition hex_uint32 (n : Z) : string := hex_digits 8 n EmptyString.

End fmt.

(** ** hash/fnv and hash/adler32 *)

Module fnv.

(** [fnv.New32a()], [Write], [Sum32]: FNV-1a over 32 bits. *)
Definition Sum32a (data : list Z) : Z :=
  fold_left (fun h b => (Z.lxor h b * 16777619) mod 2 ^ 32) data 2166136261.

End fnv.

Module adler32.

Definition update (st : Z * Z) (b : Z) : Z * Z :=
  let '(s1, s2) := st in
  let s1 := (s1 + b) mod 65521 in
  (s1, (s2 + s1) mod 65521).

Definition Checksum (data : list Z) : Z :=
  let '(s1, s2) := fold_left update data (1, 0) in
  s2 * 65536 + s1.

(** [hash32.Sum(nil)]: the checksum as four big-endian bytes. *)
Definition Sum (data : list Z) : list Z :=
  let c := Checksum data in
  [c / 16777216 mod 256; c / 65536 mod 256; c / 256 mod 256; c mod 256].

End adler32.

(** ** path/filepath on a Unix system *)

Module filepath.

(** The elements of a path between its slashes. *)
Definition elements (path : string) : list string :=
  GoStrings.Split path "/"%char.

(** One element against the elements kept so far (last one first):
    empty and [.] elements vanish, [..] removes the element before it,
    vanishes at the root and is kept at the start of a relative path. *)
Definition clean_step (rooted : bool) (out : list string) (el : string)
  : list string :=
  if String.eqb el "" || String.eqb el "." then out
  else if String.eqb el ".." then
    match out with
    | [] => if rooted then [] else [el]
    | top :: rest => if String.eqb top ".." then el :: out else rest
    end
  else el :: out.

Fixpoint join_slash (els : list string) : string :=
  match els with
  | [] => EmptyString
  | [e] => e
  | e :: els' => e ++ "/" ++ join_slash els'
  end.

(** [filepath.Clean] *)
Definition Clean (path : string) : string :=
  let rooted := GoStrings.HasPrefix path "/" in
  let out := rev (fold_left (clean_step rooted) (elements path) []) in
  if rooted then "/" ++ join_slash out
  else match out with
       | [] => "."
       | _ => join_slash out
       end.

(** [filepath.Join(elem...)]: the elements that are not empty, joined
    by slashes and cleaned; the empty string when there is none. *)
Definition Join (elem : list string) : string :=
  match filter (fun e => negb (String.eqb e "")) elem with
  | [] => EmptyString
  | els => Clean (join_slash els)
  end.

End filepath.

(** ** Package os: the files and directories the token code touches

    A node is named by the text of its path.  A file or a directory
    keeps the permission bits it was created with, which are the
    requested ones less the bits of the process's umask.  Permission
    checks on access are not modelled (the process owns what it
    creates), and neither are the ancestors of a directory. *)

Module os.

Inductive node : Type :=
| File (mode : Z) (content : string)
| Dir (mode : Z).

Inductive error : Type :=
| ENOENT | EISDIR | ENOTDIR | ENOTEMPTY.

Record FS : Type := mkFS {
  nodes : gmap string node;
  umask : Z;
  tmpdir : string   (* what [os.TempDir()] returns *)
}.

Definition with_nodes (fs : FS) (m : gmap string node) : FS :=
  mkFS m (umask fs) (tmpdir fs).

(** The permission bits a creation with [perm] yields. *)
Definition created (fs : FS) (perm : Z) : Z :=
  Z.land perm (Z.lxor 511 (Z.land (umask fs) 511)).

Definition IsNotExist (e : error) : bool :=
  match e with ENOENT => true | _ => false end.

(** [os.ReadFile(name)] *)
Definition ReadFile (fs : FS) (name : string) : string * option error :=
  match nodes fs !! name with
  | None => (EmptyString, Some ENOENT)
  | Some (Dir _) => (EmptyString, Some EISDIR)
  | Some (File _ content) => (content, None)
  end.

(** [os.WriteFile(name, data, perm)]: create the file with [perm] when
    it does not exist, otherwise replace its content and leave its
    mode as it is. *)
Definition WriteFile (fs : FS) (name data : string) (perm : Z)
  : FS * option error :=
  match nodes fs !! name with
  | None => (with_nodes fs (<[name := File (created fs perm) data]> (nodes fs)), None)
  | Some (File mode _) => (with_nodes fs (<[name := File mode data]> (nodes fs)), None)
  | Some (Dir _) => (fs, Some EISDIR)
  end.

(** Whether some node lies below the directory [name]. *)
Definition has_entries (fs : FS) (name : string) : bool :=
  existsb (fun kv => GoStrings.HasPrefix (fst kv) (name ++ "/"))
          (map_to_list (nodes fs)).

(** [os.Remove(name)]: unlink a file, remove an empty directory. *)
Definition Remove (fs : FS) (name : string) : FS * option error :=
  match nodes fs !! name with
  | None => (fs, Some ENOENT)
  | Some (File _ _) => (with_nodes fs (delete name (nodes fs)), None)
  | Some (Dir _) =>
      if has_entries fs name then (fs, Some ENOTEMPTY)
      else (with_nodes fs (delete name (nodes fs)), None)
  end.

(** [os.MkdirAll(path, perm)] *)
Definition MkdirAll (fs : FS) (path : string) (perm : Z) : FS * option error :=
  match nodes fs !! path with
  | Some (Dir _) => (fs, None)
  | Some (File _ _) => (fs, Some ENOTDIR)
  | None => (with_nodes fs (<[path := Dir (created fs perm)]> (nodes fs)), None)
  end.

End os.

(** ** Paths below a regular file

    Go's [os] calls answer [ENOTDIR] for a path one of whose ancestors
    is a regular file, whatever lies at the path itself.  The calls of
    [os] above look at the node of the path alone; [blocked] tells the
    paths for which Go's would answer so, and the statements about a
    path with no node exclude them. *)

Module ospath.



End ospath.

(** ** The credential codec (part_010, final_auth.go, detailed_auth_check.go) *)

Module codec.

(** The body of [for i := 0; i < maxLen; i++]: [n] iterations remain,
    [i] is the loop index and [result] the builder's content. *)
Fixpoint specialMerge_loop (n i : nat) (password seedValue result : string)
  : string :=
  match n with
  | O => result
  | S n' =>
      let result :=
        match String.get i password with
        | Some c => result ++ String c EmptyString
        | None => result
        end in
      let result :=
        match String.get i seedValue with
        | Some c => result ++ String c EmptyString
        | None => result
        end in
      specialMerge_loop n' (S i) password seedValue result
  end.

Definition specialMerge (password seedValue : string) : string :=
  let maxLen := String.length password in
  let maxLen :=
    if (String.length password <? String.length seedValue)%nat
    then String.length seedValue else maxLen in
  specialMerge_loop maxLen 0 password seedValue EmptyString.

(** final_auth.go, "Step 2: Encrypt password":
    [merged := specialMerge(password, seed); hash := md5.Sum([]byte(merged));
     encrypted := fmt.Sprintf("%x", hash)]. *)
Definition Encrypt (password seed : string) : string :=
  let merged := specialMerge password seed in
  let hash := md5.Sum (bytes_of_string merged) in
  fmt.hex_bytes hash.

(** The merge as the specification words it: alternate the characters
    of the two strings, password first; once one of them is exhausted,
    the rest of the other follows. *)
Fixpoint interleave (password seed : string) : string :=
  match password, seed with
  | EmptyString, _ => seed
  | _, EmptyString => password
  | String a p', String b s' => String a (String b (interleave p' s'))
  end.

Definition is_lower_hex (c : ascii) : bool :=
  let b := byte_of c in
  ((48 <=? b) && (b <=? 57)) || ((97 <=? b) && (b <=? 102)).

End codec.

(** ** What a Go function does: it returns, or it panics *)

Inductive outcome (A : Type) : Type :=
| Returns (a : A)
| Panics (msg : string).
Arguments Returns {A} a.
Arguments Panics {A} msg.

Definition bind {A B : Type} (o : outcome A) (k : A -> outcome B) : outcome B :=
  match o with
  | Returns a => k a
  | Panics msg => Panics msg
  end.

#[global] Instance outcome_bind : MBind outcome :=
  fun A B k o => bind o k.

(** [l[i]] on a slice *)
Definition index {A : Type} (l : list A) (i : nat) : outcome A :=
  match nth_error l i with
  | Some a => Returns a
  | None => Panics "index out of range"
  end.

(** ** internal/types and internal/common (types.go, part_004, part_003)

    What the commands print under [Verbose] goes to standard output and
    is left out. *)

Module types.

Definition NetgearModel : Type := string.

Definition GS30xEPx : NetgearModel := "GS30xEPx".
Definition GS305EP : NetgearModel := "GS305EP".
Definition GS305EPP : NetgearModel := "GS305EPP".
Definition GS308EP : NetgearModel := "GS308EP".
Definition GS308EPP : NetgearModel := "GS308EPP".
Definition GS316EP : NetgearModel := "GS316EP".
Definition GS316EPP : NetgearModel := "GS316EPP".

Record GlobalOptions : Type := mkGlobalOptions {
  Verbose : bool;
  Quiet : bool;
  OutputFormat : string;
  TokenDir : string;
  Model : NetgearModel;
  Token : string
}.

End types.

Module common.
Import types.

Definition IsModel30x (nm : NetgearModel) : bool :=
  String.eqb nm GS305EP || String.eqb nm GS305EPP || String.eqb nm GS308EP
  || String.eqb nm GS308EPP || String.eqb nm GS30xEPx.

Definition IsModel316 (nm : NetgearModel) : bool :=
  String.eqb nm GS316EP || String.eqb nm GS316EPP.

Definition IsSupportedModel (modelName : string) : bool :=
  IsModel30x modelName || IsModel316 modelName.

(** An [error] of the command-line code: made by [errors.New], or the
    one a call of package os returned. *)
Inductive error : Type :=
| errors_New (text : string)
| os_error (e : os.error).

Definition separator : ascii := ":"%char.

Definition dotConfigDirName (fs : os.FS) (configDir : string) : string :=
  let configDir :=
    if String.eqb configDir "" then os.tmpdir fs else configDir in
  filepath.Join [configDir; ".config"; "ntgrrc"].

Definition tokenFilename (fs : os.FS) (configDir host : string) : string :=
  filepath.Join
    [dotConfigDirName fs configDir;
     "token-" ++ fmt.hex_bytes (adler32.Sum (bytes_of_string host))].

(** [ReadTokenAndModel2GlobalOptions(args, host)]: the options as the
    call leaves them, and its three results. *)
Definition ReadTokenAndModel2GlobalOptions
    (fs : os.FS) (args : GlobalOptions) (host : string)
  : GlobalOptions * NetgearModel * string * option error :=
  if (0 <? String.length (Model args))%nat && (0 <? String.length (Token args))%nat
  then (args, Model args, Token args, None)
  else
    let '(bytes, err) := os.ReadFile fs (tokenFilename fs (TokenDir args) host) in
    if match err with Some e => os.IsNotExist e | None => false end then
      (args, "", "", Some (errors_New "no session (token) exists. please login first"))
    else
      match GoStrings.SplitN2 bytes separator with
      | [d0; d1] =>
          if negb (IsSupportedModel d0) then
            (args, "", "",
             Some (errors_New "unknown model stored in token. please login again"))
          else
            (mkGlobalOptions (Verbose args) (Quiet args) (OutputFormat args)
               (TokenDir args) d0 d1,
             d0, d1, option_map os_error err)
      | _ =>
          (args, "", "",
           Some (errors_New
             "you did an upgrade from a former ntgrcc version. please login again"))
      end.

(** [*http.Request], as far as the code sets it. *)
Record Request : Type := mkRequest {
  Method : string;
  URL : string;
  Header : gmap string (list string);
  Body : string
}.

(** [req.Header.Set(key, value)] *)
Definition Header_Set (req : Request) (key value : string) : Request :=
  mkRequest (Method req) (URL req) (<[key := [value]]> (Header req)) (Body req).

Section http.

(** Package net/http is outside the repository: [NewRequest_error]
    tells for a method and a URL the error [http.NewRequest] answers
    with, if any; [send] is [client.Do] followed by [io.ReadAll] of
    the response body. *)
Variable NewRequest_error : string -> string -> option error.
Variable send : Request -> string * option error.

Definition NewRequest (method url body : string) : Request * option error :=
  match NewRequest_error method url with
  | Some e => (mkRequest "" "" ∅ "", Some e)
  | None => (mkRequest method url ∅ body, None)
  end.

Definition DoHttpRequestAndReadResponse
    (fs : os.FS) (args : GlobalOptions)
    (httpMethod host requestUrl requestBody : string)
  : outcome (GlobalOptions * string * option error) :=
  let '(args, model, token, err) := ReadTokenAndModel2GlobalOptions fs args host in
  match err with
  | Some e => Returns (args, "", Some e)
  | None =>
      requestUrl ←
        (if IsModel316 model then
           if GoStrings.Contains requestUrl "?" then
             let splits := GoStrings.Split requestUrl "?"%char in
             s0 ← index splits 0;
             s1 ← index splits 1;
             Returns (s0 ++ "?Gambit=" ++ token ++ "&" ++ s1)
           else Returns (requestUrl ++ "?Gambit=" ++ token)
         else Returns requestUrl);
      let '(req, err) := NewRequest httpMethod requestUrl requestBody in
      match err with
      | Some e => Returns (args, "", Some e)
      | None =>
          req ←
            (if IsModel30x model then
               Returns (Header_Set req "Cookie" ("SID=" ++ token))
             else if IsModel316 model then
               Returns (Header_Set req "Cookie" ("gambitCookie=" ++ token))
             else Panics "model not supported");
          let '(body, err) := send req in
          Returns (args, body, err)
      end
  end.

End http.

Definition CheckIsLoginRequired (httpResponseBody : string) : bool :=
  (String.length httpResponseBody <? 10)%nat
  || GoStrings.Contains httpResponseBody "/login.cgi"
  || GoStrings.Contains httpResponseBody "/wmi/login"
  || GoStrings.Contains httpResponseBody "/redirect.html".

End common.

(** ** internal/client (http.go): how the command-line client stores a token *)

Module client.
Import types.

Definition ModeDir : Z := 2 ^ 31.

Definition ensureConfigPathExists (fs : os.FS) (configDir : string)
  : os.FS * option common.error :=
  let dotConfigNtgrrc := common.dotConfigDirName fs configDir in
  let '(fs, err) := os.MkdirAll fs dotConfigNtgrrc (Z.lor ModeDir 448) in
  (fs, option_map common.os_error err).

Definition storeToken (fs : os.FS) (args : GlobalOptions) (host token : string)
  : os.FS * option common.error :=
  let '(fs, err) := ensureConfigPathExists fs (TokenDir args) in
  match err with
  | Some e => (fs, Some e)
  | None =>
      let data := Model args ++ String common.separator EmptyString ++ token in
      let '(fs, err) :=
        os.WriteFile fs (common.tokenFilename fs (TokenDir args) host) data 420 in
      (fs, option_map common.os_error err)
  end.

End client.

(** ** internal/models (netgear_model.go) and pkg/netgear/internal (parser.go):
    detection of the model from the root page *)

Module models.
Import types.

Section detect.

(** [strings.ToLower] follows the Unicode case tables; the detection
    is stated for any such function. *)
Variable ToLower : string -> string.

Definition detectNetgearModelFromResponse (body : string) : NetgearModel :=
  if GoStrings.Contains (ToLower body) "<title>" && GoStrings.Contains body "GS316EPP"
  then GS316EPP
  else if GoStrings.Contains (ToLower body) "<title>" && GoStrings.Contains body "GS316EP"
  then GS316EP
  else if GoStrings.Contains (ToLower body) "<title>"
          && GoStrings.Contains body "Redirect to Login"
  then GS30xEPx
  else "".

End detect.

(** What [strings.ToLower] does on a string of ASCII bytes: the letters
    [A] to [Z] become [a] to [z]. *)
Fixpoint ToLower_ascii (s : string) : string :=
  match s with
  | EmptyString => EmptyString
  | String c s' =>
      let b := byte_of c in
      String (if (65 <=? b) && (b <=? 90) then ascii_of (b + 32) else c)
             (ToLower_ascii s')
  end.

End models.

Module parser.

Definition specificModels : list string :=
  ["GS316EPP"; "GS308EPP"; "GS305EPP"; "GS316EP"; "GS308EP"; "GS305EP"].

(** [for _, model := range specificModels { if strings.Contains(htmlContent, model) { return model } }]:
    the model returned inside the loop, if any. *)
Fixpoint firstContained (htmlContent : string) (models : list string)
  : option string :=
  match models with
  | [] => None
  | model :: rest =>
      if GoStrings.Contains htmlContent model then Some model
      else firstContained htmlContent rest
  end.

Definition DetectFromHTML (htmlContent : string) : string :=
  match firstContained htmlContent specificModels with
  | Some model => model
  | None =>
      if GoStrings.Contains htmlContent "Redirect to Login"
         || GoStrings.Contains htmlContent "redirect"
      then "GS30xEPx"
      else ""
  end.

End parser.

(** ** pkg/netgear: token managers (part_006) and endpoint registry (part_007) *)

Module netgear.

Definition Model : Type := string.

(** The error constructors [NewAuthError], [NewModelError] and
    [NewOperationError] are declared in a file of the package that is
    not among the sources.  An error value is kept as the call that
    made it: the constructor, the message and the wrapped cause. *)
Inductive error : Type :=
| NewAuthError (message : string) (cause : option os.error)
| NewModelError (message : string) (cause : option os.error)
| NewOperationError (message : string) (cause : option os.error).

(** The kind of an error is the constructor that made it. *)
Inductive ErrorKind : Type := AuthKind | ModelKind | OperationKind.

Definition kind (e : error) : ErrorKind :=
  match e with
  | NewAuthError _ _ => AuthKind
  | NewModelError _ _ => ModelKind
  | NewOperationError _ _ => OperationKind
  end.

Definition message (e : error) : string :=
  match e with
  | NewAuthError m _ | NewModelError m _ | NewOperationError m _ => m
  end.

Definition cause (e : error) : option os.error :=
  match e with
  | NewAuthError _ c | NewModelError _ c | NewOperationError _ c => c
  end.

(** *** MemoryTokenManager (the mutex guards the map and is left out) *)

Record tokenData : Type := mkTokenData { token : string; model : Model }.

Record MemoryTokenManager : Type := mkMemoryTokenManager {
  tokens : gmap string tokenData
}.

Definition NewMemoryTokenManager : MemoryTokenManager :=
  mkMemoryTokenManager ∅.

Definition Memory_GetToken (m : MemoryTokenManager) (address : string)
  : string * Model * option error :=
  match tokens m !! address with
  | None => ("", "", Some (NewAuthError "token not found" None))
  | Some data => (token data, model data, None)
  end.

Definition Memory_StoreToken (m : MemoryTokenManager) (address tok : string) (mdl : Model)
  : MemoryTokenManager * option error :=
  (mkMemoryTokenManager (<[address := mkTokenData tok mdl]> (tokens m)), None).

Definition Memory_DeleteToken (m : MemoryTokenManager) (address : string)
  : MemoryTokenManager * option error :=
  (mkMemoryTokenManager (delete address (tokens m)), None).

(** *** FileTokenManager *)

Record FileTokenManager : Type := mkFileTokenManager { cacheDir : string }.

Definition getTokenFilename (m : FileTokenManager) (address : string) : string :=
  let hash := fnv.Sum32a (bytes_of_string address) in
  filepath.Join [cacheDir m; "netgear-token-" ++ fmt.hex_uint32 hash ++ ".cache"].

Definition File_StoreToken
    (m : FileTokenManager) (fs : os.FS) (address tok : string) (mdl : Model)
  : os.FS * option error :=
  let '(fs, err) := os.MkdirAll fs (cacheDir m) 448 in
  match err with
  | Some e => (fs, Some (NewAuthError "failed to create token cache directory" (Some e)))
  | None =>
      let tokenFile := getTokenFilename m address in
      let content := mdl ++ ":" ++ tok in
      let '(fs, err) := os.WriteFile fs tokenFile content 384 in
      match err with
      | Some e => (fs, Some (NewAuthError "failed to write token file" (Some e)))
      | None => (fs, None)
      end
  end.

Definition File_DeleteToken (m : FileTokenManager) (fs : os.FS) (address : string)
  : os.FS * option error :=
  let tokenFile := getTokenFilename m address in
  let '(fs, err) := os.Remove fs tokenFile in
  match err with
  | Some e =>
      if negb (os.IsNotExist e)
      then (fs, Some (NewAuthError "failed to delete token file" (Some e)))
      else (fs, None)
  | None => (fs, None)
  end.

(** *** EndpointRegistry: types and tables *)

Definition EndpointType : Type := string.

Definition EndpointLogin : EndpointType := "login".
Definition EndpointPOEStatus : EndpointType := "poe_status".
Definition EndpointPOESettings : EndpointType := "poe_settings".
Definition EndpointPOEUpdate : EndpointType := "poe_update".
Definition EndpointPortStatus : EndpointType := "port_status".
Definition EndpointPortSettings : EndpointType := "port_settings".
Definition EndpointPortUpdate : EndpointType := "port_update".
Definition EndpointDashboard : EndpointType := "dashboard".

Record EndpointInfo : Type := mkEndpointInfo {
  URL : string;
  Supported : bool;
  Method : string
}.

Record EndpointRegistry : Type := mkEndpointRegistry { er_model : Model }.

Definition NewEndpointRegistry (mdl : Model) : EndpointRegistry :=
  mkEndpointRegistry mdl.

Definition getGS30xEndpoint (er : EndpointRegistry) (endpointType : EndpointType)
  : EndpointInfo :=
  if String.eqb endpointType EndpointLogin then
    mkEndpointInfo "/login.cgi" true "POST"
  else if String.eqb endpointType EndpointPOEStatus then
    mkEndpointInfo "/getPoePortStatus.cgi" true "GET"
  else if String.eqb endpointType EndpointPOESettings then
    mkEndpointInfo "/PoEPortConfig.cgi" true "GET"
  else if String.eqb endpointType EndpointPOEUpdate then
    mkEndpointInfo "/PoEPortConfig.cgi" true "POST"
  else if String.eqb endpointType EndpointPortStatus then
    mkEndpointInfo "/dashboard.cgi" false "GET"
  else if String.eqb endpointType EndpointPortSettings then
    mkEndpointInfo "/dashboard.cgi" false "GET"
  else if String.eqb endpointType EndpointPortUpdate then
    mkEndpointInfo "/PortConfig.cgi" false "POST"
  else if String.eqb endpointType EndpointDashboard then
    mkEndpointInfo "/dashboard.cgi" true "GET"
  else mkEndpointInfo "" false "".

Definition getGS316Endpoint (er : EndpointRegistry) (endpointType : EndpointType)
  : EndpointInfo :=
  if String.eqb endpointType EndpointLogin then
    mkEndpointInfo "/login.cgi" true "POST"
  else if String.eqb endpointType EndpointPOEStatus then
    mkEndpointInfo "/iss/specific/poePortStatus.html" true "GET"
  else if String.eqb endpointType EndpointPOESettings then
    mkEndpointInfo "/iss/specific/poePortConf.html" true "GET"
  else if String.eqb endpointType EndpointPOEUpdate then
    mkEndpointInfo "/iss/specific/poePortConf.html" true "POST"
  else if String.eqb endpointType EndpointPortStatus then
    mkEndpointInfo "/iss/specific/interface.html" true "GET"
  else if String.eqb endpointType EndpointPortSettings then
    mkEndpointInfo "/iss/specific/interface.html" true "GET"
  else if String.eqb endpointType EndpointPortUpdate then
    mkEndpointInfo "/iss/specific/interface.html" true "POST"
  else if String.eqb endpointType EndpointDashboard then
    mkEndpointInfo "/iss/specific/dashboard.html" true "GET"
  else mkEndpointInfo "" false "".

Section model_methods.

(** The methods [IsModel30x], [IsModel316] and [IsSupported] of
    [Model] are declared in a file of the package that is not among
    the sources; the code below is stated for any three predicates. *)
Variable IsModel30x IsModel316 IsSupported : Model -> bool.

Definition File_GetToken (m : FileTokenManager) (fs : os.FS) (address : string)
  : outcome (string * Model * option error) :=
  let tokenFile := getTokenFilename m address in
  let '(data, err) := os.ReadFile fs tokenFile in
  match err with
  | Some e => Returns ("", "", Some (NewAuthError "failed to read token file" (Some e)))
  | None =>
      let content := data in
      if String.eqb content "" then
        Returns ("", "",
          Some (NewAuthError "token file is empty, please upgrade your token file" None))
      else if negb (GoStrings.Contains content ":") then
        Returns ("", "", Some (NewAuthError "malformed token file" None))
      else
        let parts := GoStrings.SplitN2 content ":"%char in
        if negb (List.length parts =? 2)%nat then
          Returns ("", "", Some (NewAuthError "malformed token file" None))
        else
          p0 ← index parts 0;
          p1 ← index parts 1;
          let modelStr := GoTrim.TrimSpace p0 in
          let tok := GoTrim.TrimSpace p1 in
          let mdl : Model := modelStr in
          if negb (IsSupported mdl) then
            Returns ("", "",
              Some (NewModelError
                      ("unknown model '" ++ modelStr ++ "' in token file") None))
          else Returns (tok, mdl, None)
  end.

Definition GetEndpoint (er : EndpointRegistry) (endpointType : EndpointType)
  : EndpointInfo :=
  if IsModel30x (er_model er) then getGS30xEndpoint er endpointType
  else if IsModel316 (er_model er) then getGS316Endpoint er endpointType
  else mkEndpointInfo "" false "".

Definition IsEndpointSupported (er : EndpointRegistry) (endpointType : EndpointType)
  : bool :=
  Supported (GetEndpoint er endpointType).

Definition ValidateEndpoint (er : EndpointRegistry) (endpointType : EndpointType)
  : option error :=
  let info := GetEndpoint er endpointType in
  if negb (Supported info) then
    Some (NewOperationError
            (endpointType ++ " operation not supported on " ++ er_model er ++ " model")
            None)
  else None.

End model_methods.

End netgear.

(** ** More of package strings, and slices *)

Module GoSlices.

(** [strings.Index(s, substr)]: the offset of the first occurrence of
    [substr] in [s], [-1] when there is none. *)
Fixpoint Index (s substr : string) : Z :=
  if GoStrings.HasPrefix s substr then 0
  else match s with
       | EmptyString => -1
       | String _ s' =>
           let r := Index s' substr in
           if r =? -1 then -1 else r + 1
       end.

(** [strings.HasSuffix(s, suffix)] *)
Definition HasSuffix (s suffix : string) : bool :=
  (String.length suffix <=? String.length s)%nat
  && String.eqb (GoStrings.skip (String.length s - String.length suffix) s) suffix.

(** [s[lo:hi]]: panics unless [0 <= lo <= hi <= len(s)]. *)
Definition slice (s : string) (lo hi : Z) : outcome string :=
  if (0 <=? lo) && (lo <=? hi) && (hi <=? Z.of_nat (String.length s)) then
    Returns (GoTrim.take (Z.to_nat (hi - lo)) (GoStrings.skip (Z.to_nat lo) s))
  else Panics "slice bounds out of range".

(** [strconv.Itoa] and the verb [%d] *)
Definition Itoa (n : Z) : string := NilZero.string_of_int (Z.to_int n).

End GoSlices.

(** ** test_token_extraction.go: the session token of a [Set-Cookie] header *)

Module tokenextract.

Definition sessionIdPrefixes : list string := ["SID="].

(** The loop over [sessionIdPrefixes]. *)
Fixpoint extract_loop (setCookieHeader : string) (prefixes : list string)
  : outcome string :=
  match prefixes with
  | [] => Returns ""
  | prefix :: rest =>
      if GoStrings.HasPrefix setCookieHeader prefix then
        sidVal ← GoSlices.slice setCookieHeader
                   (Z.of_nat (String.length prefix))
                   (Z.of_nat (String.length setCookieHeader));
        let idx := GoSlices.Index sidVal ";" in
        if negb (idx =? -1) then GoSlices.slice sidVal 0 idx
        else Returns sidVal
      else extract_loop setCookieHeader rest
  end.

Definition extractSessionToken (setCookieHeader : string) : outcome string :=
  extract_loop setCookieHeader sessionIdPrefixes.

End tokenextract.

(** ** cmd/go-netgear-cli/main.go: the substring search of the
    configuration checker *)

Module cli.

(** [for i := 0; i <= len(s)-len(substr); i++]: [n] iterations remain. *)
Fixpoint findSubstring_loop (n : nat) (i : Z) (s substr : string) : outcome bool :=
  match n with
  | O => Returns false
  | S n' =>
      part ← GoSlices.slice s i (i + Z.of_nat (String.length substr));
      if String.eqb part substr then Returns true
      else findSubstring_loop n' (i + 1) s substr
  end.

Definition findSubstring (s substr : string) : outcome bool :=
  let last := Z.of_nat (String.length s) - Z.of_nat (String.length substr) in
  findSubstring_loop (Z.to_nat (last + 1)) 0 s substr.

(** [len(s) >= len(substr) && s[:len(substr)] == substr ||
     (len(s) > len(substr) && findSubstring(s, substr))] *)
Definition contains (s substr : string) : outcome bool :=
  head ←
    (if (String.length substr <=? String.length s)%nat then
       part ← GoSlices.slice s 0 (Z.of_nat (String.length substr));
       Returns (String.eqb part substr)
     else Returns false);
  if (head : bool) then Returns true
  else if (String.length substr <? String.length s)%nat
       then findSubstring s substr
       else Returns false.

End cli.

(** ** part_004: the generic [Filter] *)

Module generic.

(** [for _, s := range ss { if test(s) { ret = append(ret, s) } }] *)
Fixpoint Filter_loop {T : Type} (ss : list T) (test : T -> bool) (ret : list T)
  : list T :=
  match ss with
  | [] => ret
  | s :: ss' => Filter_loop ss' test (if test s then (ret ++ [s])%list else ret)
  end.

Definition Filter {T : Type} (ss : list T) (test : T -> bool) : list T :=
  Filter_loop ss test [].

End generic.

(** ** part_008 (package test): the test configuration *)

Module testconfig.

Record SwitchConfig : Type := mkSwitchConfig {
  Name : string;
  Address : string;
  Model : string;
  Password : string;
  TestPorts : list Z;
  SkipTests : list string
}.

Record TestOptions : Type := mkTestOptions {
  CacheDir : string;
  Verbose : bool;
  Parallel : bool;
  RestoreOnFailure : bool
}.

Record TestConfig : Type := mkTestConfig {
  Switches : list SwitchConfig;
  Options : TestOptions   (* the field [TestOptions] *)
}.

(** An error made by [fmt.Errorf], kept as its message. *)
Inductive error : Type := fmt_Errorf (message : string).

Definition validModels : list string :=
  ["GS305EP"; "GS305EPP"; "GS308EP"; "GS308EPP"; "GS308EEP"; "GS316EP"; "GS316EPP"].

(** [for _, m := range validModels { if sw.Model == m { validModel = true; break } }] *)
Fixpoint validModel_loop (model : string) (models : list string) : bool :=
  match models with
  | [] => false
  | m :: rest => if String.eqb model m then true else validModel_loop model rest
  end.

(** [for _, port := range sw.TestPorts] *)
Fixpoint validate_ports (name : string) (ports : list Z) : option error :=
  match ports with
  | [] => None
  | port :: rest =>
      if (port <? 1) || (16 <? port) then
        Some (fmt_Errorf ("switch " ++ name ++ ": invalid port number "
                          ++ GoSlices.Itoa port ++ " (must be 1-16)"))
      else validate_ports name rest
  end.

(** [for i, sw := range c.Switches] *)
Fixpoint validate_switches (i : Z) (switches : list SwitchConfig) : option error :=
  match switches with
  | [] => None
  | sw :: rest =>
      if String.eqb (Name sw) "" then
        Some (fmt_Errorf ("switch " ++ GoSlices.Itoa i ++ ": name is required"))
      else if String.eqb (Address sw) "" then
        Some (fmt_Errorf ("switch " ++ Name sw ++ ": address is required"))
      else if String.eqb (Model sw) "" then
        Some (fmt_Errorf ("switch " ++ Name sw ++ ": model is required"))
      else if String.eqb (Password sw) "" then
        Some (fmt_Errorf ("switch " ++ Name sw ++ ": password is required"))
      else if (List.length (TestPorts sw) =? 0)%nat then
        Some (fmt_Errorf ("switch " ++ Name sw ++ ": at least one test port is required"))
      else if negb (validModel_loop (Model sw) validModels) then
        Some (fmt_Errorf ("switch " ++ Name sw ++ ": unsupported model " ++ Model sw))
      else
        match validate_ports (Name sw) (TestPorts sw) with
        | Some e => Some e
        | None => validate_switches (i + 1) rest
        end
  end.

Definition Validate (c : TestConfig) : option error :=
  if (List.length (Switches c) =? 0)%nat then
    Some (fmt_Errorf "no switches configured")
  else validate_switches 0 (Switches c).

Definition setDefaults (c : TestConfig) : TestConfig :=
  if String.eqb (CacheDir (Options c)) "" then
    mkTestConfig (Switches c)
      (mkTestOptions "/tmp/netgear-test-cache" (Verbose (Options c))
         (Parallel (Options c)) (RestoreOnFailure (Options c)))
  else c.

Fixpoint GetSwitchByName_loop (switches : list SwitchConfig) (name : string)
  : option SwitchConfig :=
  match switches with
  | [] => None
  | sw :: rest =>
      if String.eqb (Name sw) name then Some sw else GetSwitchByName_loop rest name
  end.

Definition GetSwitchByName (c : TestConfig) (name : string)
  : option SwitchConfig * option error :=
  match GetSwitchByName_loop (Switches c) name with
  | Some sw => (Some sw, None)
  | None => (None, Some (fmt_Errorf ("switch with name " ++ name ++ " not found")))
  end.

(** [for _, skip := range s.SkipTests] *)
Fixpoint ShouldSkipTest_loop (skips : list string) (testName : string) : bool :=
  match skips with
  | [] => false
  | skip :: rest =>
      if String.eqb skip testName || GoStrings.HasPrefix testName skip then true
      else ShouldSkipTest_loop rest testName
  end.

Definition ShouldSkipTest (s : SwitchConfig) (testName : string) : bool :=
  ShouldSkipTest_loop (SkipTests s) testName.

Definition IsModel30x (s : SwitchConfig) : bool := GoStrings.HasPrefix (Model s) "GS30".

Definition IsModel316 (s : SwitchConfig) : bool := GoStrings.HasPrefix (Model s) "GS316".

End testconfig.

(** ** internal/models (poe_cycle.go): the payload that resets PoE ports *)

Module poe.

Section payload.

(** The constant [gs316NoPoePorts] is declared in a file that is not
    among the sources. *)
Variable gs316NoPoePorts : Z.

(** [for _, p := range poePorts { if p-1 == i { ...; written = true; break } }]:
    the value of [written] after the loop. *)
Fixpoint written_loop (i : Z) (poePorts : list Z) : bool :=
  match poePorts with
  | [] => false
  | p :: rest => if p - 1 =? i then true else written_loop i rest
  end.

(** [for i := 0; i < gs316NoPoePorts; i++]: [n] iterations remain. *)
Fixpoint payload_loop (n : nat) (i : Z) (poePorts : list Z) (result : string)
  : string :=
  match n with
  | O => result
  | S n' =>
      payload_loop n' (i + 1) poePorts
        (result ++ (if written_loop i poePorts then "1" else "0"))
  end.

Definition createPortResetPayloadGs316EPx (poePorts : list Z) : string :=
  payload_loop (Z.to_nat gs316NoPoePorts) 0 poePorts "".

End payload.

End poe.

(** ** test/fixtures.go and test/helpers.go *)

Module fixtures.

Definition GetPortCount (model : string) : Z :=
  if String.eqb model "GS305EP" || String.eqb model "GS305EPP" then 5
  else if String.eqb model "GS308EP" || String.eqb model "GS308EPP" then 8
  else if String.eqb model "GS316EP" || String.eqb model "GS316EPP" then 16
  else 8.

(** [for i := 0; i < portCount; i++ { ports[i] = i + 1 }]: [n] iterations
    remain. *)
Fixpoint fill_loop (n : nat) (i : Z) (ports : list Z) : list Z :=
  match n with
  | O => ports
  | S n' => fill_loop n' (i + 1) (<[Z.to_nat i := i + 1]> ports)
  end.

Definition GetValidPortNumbers (model : string) : list Z :=
  let portCount := GetPortCount model in
  let ports := replicate (Z.to_nat portCount) 0 in
  fill_loop (Z.to_nat portCount) 0 ports.

End fixtures.

Module helpers.

Section report.

(** [time.Time], the type of [TestResult.Error] and the one of
    [TestResult.Details] are not looked into. *)
Variables Time Duration Err Details : Type.
Variable zeroTime : Time.

Record TestResult : Type := mkTestResult {
  TestName : string;
  SwitchName : string;
  Passed : bool;
  Error : Err;
  Duration_ : Duration;
  StartTime : Time;
  EndTime : Time;
  Details_ : Details
}.

Record TestReport : Type := mkTestReport {
  r_StartTime : Time;
  r_EndTime : Time;
  TotalTests : Z;
  PassedTests : Z;
  FailedTests : Z;
  SkippedTests : Z;
  Results : list TestResult
}.

(** [for _, result := range results { if result.Passed { report.PassedTests++ }
    else { report.FailedTests++ } }] *)
Fixpoint count_loop (results : list TestResult) (report : TestReport) : TestReport :=
  match results with
  | [] => report
  | result :: rest =>
      count_loop rest
        (if Passed result then
           mkTestReport (r_StartTime report) (r_EndTime report) (TotalTests report)
             (PassedTests report + 1) (FailedTests report) (SkippedTests report)
             (Results report)
         else
           mkTestReport (r_StartTime report) (r_EndTime report) (TotalTests report)
             (PassedTests report) (FailedTests report + 1) (SkippedTests report)
             (Results report))
  end.

Definition GenerateTestReport (results : list TestResult) : outcome TestReport :=
  let report :=
    mkTestReport zeroTime zeroTime (Z.of_nat (List.length results)) 0 0 0 results in
  if (0 <? List.length results)%nat then
    first ← index results 0;
    last ← index results (List.length results - 1);
    let report :=
      mkTestReport (StartTime first) (EndTime last) (TotalTests report)
        (PassedTests report) (FailedTests report) (SkippedTests report)
        (Results report) in
    Returns (count_loop results report)
  else Returns report.

End report.

Section compare.

(** [netgear.PortSpeed] is declared in a file of the package that is not
    among the sources: a type with an equality test, printed by [%v] as
    [show_PortSpeed] says. *)
Context {PortSpeed : Type} `{EqDecision PortSpeed}.
Variable show_PortSpeed : PortSpeed -> string.

Record PortState : Type := mkPortState {
  PortID : Z;
  ps_Name : string;
  Speed : PortSpeed;
  FlowControl : bool;
  IngressLimit : string;
  EgressLimit : string
}.

Definition show_bool (b : bool) : string := if b then "true" else "false".

(** [append(differences, d)] *)
Definition append (differences : list string) (d : string) : list string :=
  (differences ++ [d])%list.

Definition ComparePortState (expected actual : PortState) : list string :=
  let differences : list string := [] in
  let differences :=
    if negb (String.eqb (ps_Name expected) (ps_Name actual)) then
      append differences ("Name: expected " ++ ps_Name expected ++ ", got " ++ ps_Name actual)
    else differences in
  let differences :=
    if negb (bool_decide (Speed expected = Speed actual)) then
      append differences ("Speed: expected " ++ show_PortSpeed (Speed expected)
                      ++ ", got " ++ show_PortSpeed (Speed actual))
    else differences in
  let differences :=
    if negb (Bool.eqb (FlowControl expected) (FlowControl actual)) then
      append differences ("FlowControl: expected " ++ show_bool (FlowControl expected)
                      ++ ", got " ++ show_bool (FlowControl actual))
    else differences in
  let differences :=
    if negb (String.eqb (IngressLimit expected) (IngressLimit actual)) then
      append differences ("IngressLimit: expected " ++ IngressLimit expected
                      ++ ", got " ++ IngressLimit actual)
    else differences in
  let differences :=
    if negb (String.eqb (EgressLimit expected) (EgressLimit actual)) then
      append differences ("EgressLimit: expected " ++ EgressLimit expected
                      ++ ", got " ++ EgressLimit actual)
    else differences in
  differences.

End compare.

End helpers.

(** ** part_007 and part_006, continued: the supported endpoints and the
    authentication type *)

Module registry.
Import netgear.

Definition allEndpoints : list EndpointType :=
  [EndpointLogin; EndpointPOEStatus; EndpointPOESettings; EndpointPOEUpdate;
   EndpointPortStatus; EndpointPortSettings; EndpointPortUpdate; EndpointDashboard].

Inductive AuthenticationType : Type := AuthTypeSession | AuthTypeGambit.

Section model_methods.

Variable IsModel30x IsModel316 : Model -> bool.

(** [for _, endpoint := range allEndpoints] *)
Fixpoint supported_loop (er : EndpointRegistry) (endpoints : list EndpointType)
    (supported : gmap string EndpointInfo) : gmap string EndpointInfo :=
  match endpoints with
  | [] => supported
  | endpoint :: rest =>
      let info := GetEndpoint IsModel30x IsModel316 er endpoint in
      supported_loop er rest
        (if Supported info then <[endpoint := info]> supported else supported)
  end.

Definition GetSupportedEndpoints (er : EndpointRegistry) : gmap string EndpointInfo :=
  supported_loop er allEndpoints ∅.

Definition GetAuthenticationType (mdl : Model) : AuthenticationType :=
  if IsModel316 mdl then AuthTypeGambit else AuthTypeSession.

End model_methods.

End registry.

(** ** part_008, continued: references to environment variables *)

Module envexpand.

Section env.

(** [os.Getenv]: the value of a variable, empty when it is not set. *)
Variable Getenv : string -> string.

(** The [for] loop of [expandEnvVariables], which ends only through its
    two [break]s: [None] when [fuel] iterations did not reach one. *)
Fixpoint expand_loop (fuel : nat) (s : string) : option (outcome string) :=
  match fuel with
  | O => None
  | S fuel' =>
      let start := GoSlices.Index s "${" in
      if start =? -1 then Some (Returns s)
      else
        match GoSlices.slice s start (Z.of_nat (String.length s)) with
        | Panics msg => Some (Panics msg)
        | Returns tail =>
            let end_ := GoSlices.Index tail "}" in
            if end_ =? -1 then Some (Returns s)
            else
              let end_ := end_ + start in
              match GoSlices.slice s (start + 2) end_ with
              | Panics msg => Some (Panics msg)
              | Returns varName =>
                  let varValue := Getenv varName in
                  match GoSlices.slice s 0 start,
                        GoSlices.slice s (end_ + 1) (Z.of_nat (String.length s)) with
                  | Returns before, Returns after =>
                      expand_loop fuel' (before ++ varValue ++ after)
                  | Panics msg, _ | _, Panics msg => Some (Panics msg)
                  end
              end
        end
  end.

Definition expandEnvVariables (fuel : nat) (s : string) : option (outcome string) :=
  expand_loop fuel s.

End env.

End envexpand.

Example md5_empty :
  fmt.hex_bytes (md5.Sum []) = "d41d8cd98f00b204e9800998ecf8427e".
Proof. vm_compute. reflexivity. Qed.

Example md5_abc :
  fmt.hex_bytes (md5.Sum (bytes_of_string "abc"))
  = "900150983cd24fb0d6963f7d28e17f72".
Proof. vm_compute. reflexivity. Qed.

Example md5_two_blocks :
  fmt.hex_bytes (md5.Sum (bytes_of_string
    "12345678901234567890123456789012345678901234567890123456789012345678901234567890"))
  = "57edf4a22be3c955ac49da2e2107b67a".
Proof. vm_compute. reflexivity. Qed.

Example trim_ascii :
  GoTrim.TrimSpace (String " " (String "009" ("abc d" ++ String "010" (String "013" " "))))
  = "abc d".
Proof. vm_compute. reflexivity. Qed.

(** A no-break space (U+00A0) in front and an ideographic space (U+3000)
    behind are white space too; a lone continuation byte is not. *)
Example trim_unicode :
  GoTrim.TrimSpace (string_of_bytes [194; 160; 97; 98; 32; 227; 128; 128; 32])
  = "ab".
Proof. vm_compute. reflexivity. Qed.

Example trim_invalid :
  GoTrim.TrimSpace (string_of_bytes [32; 160; 97; 32; 128; 32])
  = string_of_bytes [160; 97; 32; 128].
Proof. vm_compute. reflexivity. Qed.

Example Encrypt_admin :
  codec.Encrypt "admin" "424242" = "1db6e92be59d31d9b122632967a3887c".
Proof. vm_compute. reflexivity. Qed.

Example fnv_a : fnv.Sum32a (bytes_of_string "a") = 3826002220.
Proof. reflexivity. Qed.

Example adler_wikipedia : adler32.Checksum (bytes_of_string "Wikipedia") = 300286872.
Proof. reflexivity. Qed.

Example clean_examples :
  map filepath.Clean ["a//b/./c/.."; "/../a/"; ""; "../../x"; "/"; "a/.."]
  = ["a/b"; "/a"; "."; "../../x"; "/"; "."].
Proof. vm_compute. reflexivity. Qed.

Example join_example :
  filepath.Join ["/tmp/cache/"; "netgear-token-" ++ fmt.hex_uint32 171 ++ ".cache"]
  = "/tmp/cache/netgear-token-ab.cache".
Proof. vm_compute. reflexivity. Qed.


(** * Properties *)

(** ** Strings *)

#[local] Arguments String.append !_ _ : simpl nomatch.

Section string_facts.

Lemma append_nil_r (s : string) : s ++ "" = s.
Proof. induction s as [|c s IH]; simpl; [reflexivity | now rewrite IH]. Qed.

Lemma append_assoc (a b c : string) : (a ++ b) ++ c = a ++ (b ++ c).
Proof. induction a as [|x a IH]; simpl; [reflexivity | now rewrite IH]. Qed.

Lemma length_append (a b : string) :
  String.length (a ++ b) = (String.length a + String.length b)%nat.
Proof. induction a as [|x a IH]; simpl; [reflexivity | now rewrite IH]. Qed.

Lemma get_skip (i : nat) (s : string) :
  String.get i s =
  match GoStrings.skip i s with
  | String c _ => Some c
  | EmptyString => None
  end.
Proof.
  revert s; induction i as [|i IH]; intros [|c s]; simpl; try reflexivity.
  apply IH.
Qed.

Lemma skip_succ (i : nat) (s : string) :
  GoStrings.skip (S i) s =
  match GoStrings.skip i s with
  | String _ t => t
  | EmptyString => EmptyString
  end.
Proof.
  revert s; induction i as [|i IH]; intros s.
  - destruct s; reflexivity.
  - destruct s as [|c s]; [reflexivity | exact (IH s)].
Qed.

Lemma HasPrefix_append (a b : string) : GoStrings.HasPrefix (a ++ b) a = true.
Proof.
  induction a as [|c a IH]; simpl; [now destruct b |].
  now rewrite Ascii.eqb_refl.
Qed.

Lemma Contains_HasPrefix (s substr : string) :
  GoStrings.HasPrefix s substr = true -> GoStrings.Contains s substr = true.
Proof. intros H. destruct s; cbn [GoStrings.Contains]; now rewrite H. Qed.

Lemma Contains_append (pre a post : string) :
  GoStrings.Contains (pre ++ a ++ post) a = true.
Proof.
  induction pre as [|c pre IH].
  - apply Contains_HasPrefix. exact (HasPrefix_append a post).
  - simpl. rewrite IH. apply orb_true_r.
Qed.

End string_facts.

(** ** The credential codec *)

Section codec_facts.
Import codec.

Lemma interleave_nil_r (p : string) : interleave p "" = p.
Proof. destruct p; reflexivity. Qed.

(** The loop, started at index [i] with [acc] built so far, appends
    the interleaving of what is left of the two strings. *)
Lemma specialMerge_loop_spec (password seedValue : string) :
  forall (n i : nat) (acc : string),
    Nat.max (String.length (GoStrings.skip i password))
            (String.length (GoStrings.skip i seedValue)) = n ->
    specialMerge_loop n i password seedValue acc
    = acc ++ interleave (GoStrings.skip i password) (GoStrings.skip i seedValue).
Proof.
  induction n as [|n IH]; intros i acc Hn.
  - destruct (GoStrings.skip i password), (GoStrings.skip i seedValue);
      simpl in Hn; try discriminate.
    simpl. now rewrite append_nil_r.
  - cbn [specialMerge_loop].
    rewrite !get_skip.
    pose proof (skip_succ i password) as Hp.
    pose proof (skip_succ i seedValue) as Hs.
    destruct (GoStrings.skip i password) as [|a p'],
             (GoStrings.skip i seedValue) as [|b s'];
      simpl in Hn; try discriminate;
      (rewrite IH; [rewrite Hp, Hs | rewrite Hp, Hs; simpl; lia]).
    + simpl. now rewrite append_assoc.
    + rewrite !interleave_nil_r. now rewrite append_assoc.
    + simpl. rewrite !append_assoc. reflexivity.
Qed.

Lemma specialMerge_interleave (password seed : string) :
  specialMerge password seed = interleave password seed.
Proof.
  unfold specialMerge.
  rewrite specialMerge_loop_spec; [reflexivity |].
  simpl. destruct (Nat.ltb_spec (String.length password) (String.length seed)); lia.
Qed.

Lemma length_le_bytes (n : nat) (x : Z) : List.length (md5.le_bytes n x) = n.
Proof. unfold md5.le_bytes. now rewrite length_map, length_seq. Qed.

Lemma length_md5_Sum (data : list Z) : List.length (md5.Sum data) = 16%nat.
Proof.
  unfold md5.Sum.
  destruct (md5.blocks _ _ _) as [[[a b] c] d].
  rewrite !length_app, !length_le_bytes. reflexivity.
Qed.

Lemma length_hex_bytes (bs : list Z) :
  String.length (fmt.hex_bytes bs) = (2 * List.length bs)%nat.
Proof. induction bs as [|b bs IH]; simpl; [reflexivity | rewrite IH; lia]. Qed.

Lemma hexdigit_lower (d : Z) : is_lower_hex (fmt.hexdigit d) = true.
Proof.
  unfold fmt.hexdigit. generalize (Z.to_nat d). intros n.
  do 16 (destruct n as [|n]; [reflexivity |]).
  destruct n; reflexivity.
Qed.

Lemma hex_bytes_lower (bs : list Z) :
  forallb is_lower_hex (list_ascii_of_string (fmt.hex_bytes bs)) = true.
Proof.
  induction bs as [|b bs IH]; [reflexivity |].
  cbn [fmt.hex_bytes list_ascii_of_string forallb].
  now rewrite !hexdigit_lower, IH.
Qed.

End codec_facts.

(** C1.  [Encrypt password seed] is the lowercase hexadecimal MD5 digest
    of the interleaving of the two strings (password character first,
    then seed character, and the rest of the longer string once the
    shorter one is exhausted); equal inputs give equal digests; the
    result has exactly 32 characters, each one of [0-9a-f]. *)
Theorem Encrypt_md5_of_interleave (password seed : string) :
  codec.specialMerge password seed = codec.interleave password seed
  /\ codec.Encrypt password seed
     = fmt.hex_bytes (md5.Sum (bytes_of_string (codec.interleave password seed)))
  /\ (forall password' seed' : string,
        password' = password -> seed' = seed ->
        codec.Encrypt password' seed' = codec.Encrypt password seed)
  /\ String.length (codec.Encrypt password seed) = 32%nat
  /\ forallb codec.is_lower_hex
       (list_ascii_of_string (codec.Encrypt password seed)) = true.
Proof.
  repeat split.
  - apply specialMerge_interleave.
  - unfold codec.Encrypt. now rewrite specialMerge_interleave.
  - intros password' seed' -> ->. reflexivity.
  - unfold codec.Encrypt. now rewrite length_hex_bytes, length_md5_Sum.
  - apply hex_bytes_lower.
Qed.

Lemma Encrypt_md5_of_interleave_witness :
  codec.Encrypt "admin" "424242" = codec.Encrypt "admin" "424242"
  /\ String.length (codec.Encrypt "admin" "424242") = 32%nat.
Proof.
  destruct (Encrypt_md5_of_interleave "admin" "424242") as (_ & _ & Hdet & Hlen & _).
  split; [apply Hdet; reflexivity | exact Hlen].
Defined.

(** C7, as the code has it.  The interleaving of the password ["admin"]
    with the seed ["424242"] is ["a4d2m4i2n42"]: after the five pairs the
    sixth character of the seed is appended. *)
Theorem specialMerge_admin_424242 :
  codec.specialMerge "admin" "424242" = "a4d2m4i2n42".
Proof. reflexivity. Qed.

(** C7 as stated fails: the merge is not ["a4d2m4i2n4"]. *)
Lemma specialMerge_admin_424242_not_truncated :
  codec.specialMerge "admin" "424242" <> "a4d2m4i2n4".
Proof. discriminate. Qed.

(** ** The response classifier *)

(** C4.  [CheckIsLoginRequired] answers true for every body of fewer
    than 10 bytes and for every body that contains one of the markers
    [/login.cgi], [/wmi/login], [/redirect.html]; it answers false for a
    body of at least 10 bytes that contains none of them. *)
Theorem CheckIsLoginRequired_classifies :
  (forall body : string,
     (String.length body < 10)%nat -> common.CheckIsLoginRequired body = true)
  /\ (forall body : string,
        GoStrings.Contains body "/login.cgi" = true
        \/ GoStrings.Contains body "/wmi/login" = true
        \/ GoStrings.Contains body "/redirect.html" = true ->
        common.CheckIsLoginRequired body = true)
  /\ (forall body : string,
        (10 <= String.length body)%nat ->
        GoStrings.Contains body "/login.cgi" = false ->
        GoStrings.Contains body "/wmi/login" = false ->
        GoStrings.Contains body "/redirect.html" = false ->
        common.CheckIsLoginRequired body = false).
Proof.
  unfold common.CheckIsLoginRequired. repeat split.
  - intros body Hlen. apply Nat.ltb_lt in Hlen. now rewrite Hlen.
  - intros body [H | [H | H]]; rewrite H;
      rewrite ?orb_true_r; reflexivity.
  - intros body Hlen H1 H2 H3. rewrite H1, H2, H3.
    apply Nat.ltb_ge in Hlen. now rewrite Hlen.
Qed.

Lemma CheckIsLoginRequired_classifies_witness :
  common.CheckIsLoginRequired "<html/>" = true
  /\ common.CheckIsLoginRequired "<a href='/wmi/login'>Log in</a>" = true
  /\ common.CheckIsLoginRequired
       "<html><body><li class='poePortStatusListItem'>1</li></body></html>" = false.
Proof.
  destruct CheckIsLoginRequired_classifies as (Hshort & Hmarker & Hdata).
  split; [| split].
  - apply Hshort. simpl. lia.
  - apply Hmarker. right. left. reflexivity.
  - apply Hdata; [simpl; lia | reflexivity ..].
Defined.

(** ** The endpoint registry *)

Section registry_facts.
Import netgear.

Variable IsModel30x IsModel316 : Model -> bool.

Lemma ValidateEndpoint_lookup (er : EndpointRegistry) (endpointType : EndpointType) :
  ValidateEndpoint IsModel30x IsModel316 er endpointType
  = if Supported (GetEndpoint IsModel30x IsModel316 er endpointType) then None
    else Some (NewOperationError
                 (endpointType ++ " operation not supported on " ++ er_model er ++ " model")
                 None).
Proof. unfold ValidateEndpoint. now destruct (Supported _). Qed.

End registry_facts.

(** C8.  For a model of the 30x family, validating the port update
    operation answers the error "port_update operation not supported on
    <model> model"; for every registry and operation whose descriptor is
    not supported, validation answers that error of the operation kind,
    and it answers no error when the descriptor is supported.
    [ValidateEndpoint] is a function of the registry and the operation
    alone: it has no transport to call. *)
Theorem ValidateEndpoint_unsupported (IsModel30x IsModel316 : netgear.Model -> bool) :
  (forall mdl : netgear.Model,
     IsModel30x mdl = true ->
     netgear.ValidateEndpoint IsModel30x IsModel316
       (netgear.NewEndpointRegistry mdl) netgear.EndpointPortUpdate
     = Some (netgear.NewOperationError
               ("port_update operation not supported on " ++ mdl ++ " model") None))
  /\ (forall (er : netgear.EndpointRegistry) (endpointType : netgear.EndpointType),
        netgear.Supported (netgear.GetEndpoint IsModel30x IsModel316 er endpointType) = false ->
        exists e : netgear.error,
          netgear.ValidateEndpoint IsModel30x IsModel316 er endpointType = Some e
          /\ netgear.kind e = netgear.OperationKind
          /\ netgear.message e
             = endpointType ++ " operation not supported on "
               ++ netgear.er_model er ++ " model")
  /\ (forall (er : netgear.EndpointRegistry) (endpointType : netgear.EndpointType),
        netgear.Supported (netgear.GetEndpoint IsModel30x IsModel316 er endpointType) = true ->
        netgear.ValidateEndpoint IsModel30x IsModel316 er endpointType = None).
Proof.
  repeat split.
  - intros mdl H30x. rewrite ValidateEndpoint_lookup.
    unfold netgear.GetEndpoint, netgear.NewEndpointRegistry. simpl.
    rewrite H30x. reflexivity.
  - intros er endpointType Hno. rewrite ValidateEndpoint_lookup, Hno.
    eexists. repeat split.
  - intros er endpointType Hyes. now rewrite ValidateEndpoint_lookup, Hyes.
Qed.

Lemma ValidateEndpoint_unsupported_witness :
  netgear.ValidateEndpoint common.IsModel30x common.IsModel316
    (netgear.NewEndpointRegistry "GS308EP") netgear.EndpointPortUpdate
  = Some (netgear.NewOperationError
            "port_update operation not supported on GS308EP model" None)
  /\ (exists e : netgear.error,
        netgear.ValidateEndpoint common.IsModel30x common.IsModel316
          (netgear.NewEndpointRegistry "GS305EPP") netgear.EndpointPortSettings = Some e
        /\ netgear.kind e = netgear.OperationKind
        /\ netgear.message e = "port_settings operation not supported on GS305EPP model")
  /\ netgear.ValidateEndpoint common.IsModel30x common.IsModel316
       (netgear.NewEndpointRegistry "GS316EP") netgear.EndpointPortUpdate = None.
Proof.
  destruct (ValidateEndpoint_unsupported common.IsModel30x common.IsModel316)
    as (Hport & Hno & Hyes).
  split; [| split].
  - apply (Hport "GS308EP"). reflexivity.
  - apply (Hno (netgear.NewEndpointRegistry "GS305EPP") netgear.EndpointPortSettings).
    reflexivity.
  - apply Hyes. reflexivity.
Defined.

(** ** Detection of the model *)

Section detection_facts.

Variable ToLower : string -> string.

Lemma no_specific_marker (body : string) :
  parser.firstContained body parser.specificModels = None ->
  GoStrings.Contains body "GS316EPP" = false
  /\ GoStrings.Contains body "GS316EP" = false.
Proof.
  cbn [parser.firstContained parser.specificModels].
  destruct (GoStrings.Contains body "GS316EPP"); [discriminate |].
  destruct (GoStrings.Contains body "GS308EPP"); [discriminate |].
  destruct (GoStrings.Contains body "GS305EPP"); [discriminate |].
  destruct (GoStrings.Contains body "GS316EP"); [discriminate |].
  split; reflexivity.
Qed.

Lemma detect_316EPP_first (body : string) :
  GoStrings.Contains body "GS316EPP" = true ->
  models.detectNetgearModelFromResponse ToLower body <> types.GS316EP.
Proof.
  intros H. unfold models.detectNetgearModelFromResponse. rewrite H.
  destruct (GoStrings.Contains (ToLower body) "<title>"); simpl; discriminate.
Qed.

Lemma DetectFromHTML_316EPP_first (body : string) :
  GoStrings.Contains body "GS316EPP" = true ->
  parser.DetectFromHTML body = "GS316EPP".
Proof.
  intros H. unfold parser.DetectFromHTML.
  cbn [parser.firstContained parser.specificModels]. now rewrite H.
Qed.

End detection_facts.

(** C3, as the code has it.  Both detectors try the most specific name
    first: a body that contains [GS316EPP] is never classified as
    [GS316EP] (the library detector answers [GS316EPP]).  A body that
    contains ["Redirect to Login"] and none of the specific model names is
    classified as [GS30xEPx] by the library detector, for which the word
    ["redirect"] is enough, and by the command-line detector when the
    body also contains [<title>] in some letter case.  Without a
    [<title>] tag, in any letter case, the command-line detector detects
    no model, whatever else the body contains. *)
Theorem detection_most_specific_first (ToLower : string -> string) (body : string) :
  (GoStrings.Contains body "GS316EPP" = true ->
     models.detectNetgearModelFromResponse ToLower body <> types.GS316EP
     /\ parser.DetectFromHTML body = "GS316EPP"
     /\ parser.DetectFromHTML body <> "GS316EP")
  /\ (parser.firstContained body parser.specificModels = None ->
      GoStrings.Contains body "Redirect to Login" = true
      \/ GoStrings.Contains body "redirect" = true ->
      parser.DetectFromHTML body = "GS30xEPx")
  /\ (parser.firstContained body parser.specificModels = None ->
      GoStrings.Contains body "Redirect to Login" = true ->
      GoStrings.Contains (ToLower body) "<title>" = true ->
      models.detectNetgearModelFromResponse ToLower body = types.GS30xEPx)
  /\ (GoStrings.Contains (ToLower body) "<title>" = false ->
      models.detectNetgearModelFromResponse ToLower body = "").
Proof.
  split; [| split; [| split]].
  - intros H. split; [now apply detect_316EPP_first |].
    rewrite (DetectFromHTML_316EPP_first body H). split; [reflexivity | discriminate].
  - intros Hnone Hredirect. unfold parser.DetectFromHTML. rewrite Hnone.
    destruct Hredirect as [-> | ->]; rewrite ?orb_true_r; reflexivity.
  - intros Hnone Hredirect Htitle.
    destruct (no_specific_marker body Hnone) as [Hpp Hp].
    unfold models.detectNetgearModelFromResponse.
    rewrite Htitle, Hpp, Hp, Hredirect. reflexivity.
  - intros Htitle. unfold models.detectNetgearModelFromResponse.
    rewrite Htitle. reflexivity.
Qed.

Lemma detection_most_specific_first_witness :
  (models.detectNetgearModelFromResponse models.ToLower_ascii
     "<html><head><TITLE>GS316EPP</TITLE></head></html>" <> types.GS316EP
   /\ parser.DetectFromHTML "<html><head><TITLE>GS316EPP</TITLE></head></html>"
      = "GS316EPP")
  /\ parser.DetectFromHTML "<script>top.location.href = '/redirect.html';</script>"
     = "GS30xEPx"
  /\ models.detectNetgearModelFromResponse models.ToLower_ascii
       "<html><head><title>Redirect to Login</title></head></html>" = types.GS30xEPx
  /\ models.detectNetgearModelFromResponse models.ToLower_ascii
       "<html><body>GS316EPP Redirect to Login</body></html>" = "".
Proof.
  split; [| split; [| split]].
  - destruct (detection_most_specific_first models.ToLower_ascii
                "<html><head><TITLE>GS316EPP</TITLE></head></html>")
      as (H & _ & _ & _).
    destruct (H eq_refl) as (H1 & H2 & _). split; assumption.
  - destruct (detection_most_specific_first models.ToLower_ascii
                "<script>top.location.href = '/redirect.html';</script>")
      as (_ & H & _ & _).
    apply H; [reflexivity | right; reflexivity].
  - destruct (detection_most_specific_first models.ToLower_ascii
                "<html><head><title>Redirect to Login</title></head></html>")
      as (_ & _ & H & _).
    apply H; reflexivity.
  - destruct (detection_most_specific_first models.ToLower_ascii
                "<html><body>GS316EPP Redirect to Login</body></html>")
      as (_ & _ & _ & H).
    apply H; reflexivity.
Defined.

(** C3 as stated fails for the command-line detector: the body
    ["Redirect to Login"] names no specific model, yet without a
    [<title>] tag no model is detected. *)
Lemma detect_redirect_without_title :
  GoStrings.Contains "Redirect to Login" "Redirect to Login" = true
  /\ parser.firstContained "Redirect to Login" parser.specificModels = None
  /\ models.detectNetgearModelFromResponse models.ToLower_ascii "Redirect to Login" = ""
  /\ models.detectNetgearModelFromResponse models.ToLower_ascii "Redirect to Login"
     <> types.GS30xEPx.
Proof. repeat split. discriminate. Qed.

(** ** The authenticated request gateway *)

Section split_facts.

Lemma Contains_byte (x c : ascii) (s : string) :
  GoStrings.Contains (String x s) (String c "")
  = Ascii.eqb c x || GoStrings.Contains s (String c "").
Proof.
  cbn [GoStrings.Contains GoStrings.HasPrefix].
  destruct (Ascii.eqb c x); [| reflexivity].
  destruct s; reflexivity.
Qed.

(** [Split] yields the whole string when it holds no separator, and at
    least two parts otherwise, the first of which is the text before the
    first separator. *)
Lemma Split_spec (c : ascii) (s : string) :
  if GoStrings.Contains s (String c "") then
    exists s0 s1 rest,
      GoStrings.Split s c = s0 :: s1 :: rest
      /\ GoStrings.Contains s0 (String c "") = false
      /\ GoStrings.HasPrefix s s0 = true
  else GoStrings.Split s c = [s].
Proof.
  induction s as [|x s IH].
  - reflexivity.
  - rewrite Contains_byte. cbn [GoStrings.Split].
    rewrite (Ascii.eqb_sym c x).
    destruct (Ascii.eqb x c) eqn:Exc; cbn [orb].
    + exists "", (hd "" (GoStrings.Split s c)), (tl (GoStrings.Split s c)).
      repeat split.
      destruct (GoStrings.Contains s (String c "")).
      * destruct IH as (s0 & s1 & rest & -> & _). reflexivity.
      * rewrite IH. reflexivity.
    + destruct (GoStrings.Contains s (String c "")).
      * destruct IH as (s0 & s1 & rest & -> & Hno & Hpre).
        exists (String x s0), s1, rest. repeat split.
        -- rewrite Contains_byte, Hno, (Ascii.eqb_sym c x), Exc. reflexivity.
        -- cbn [GoStrings.HasPrefix]. now rewrite Ascii.eqb_refl.
      * rewrite IH. reflexivity.
Qed.

Lemma IsModel316_not_30x (nm : types.NetgearModel) :
  common.IsModel316 nm = true -> common.IsModel30x nm = false.
Proof.
  unfold common.IsModel316, common.IsModel30x. intros H.
  apply orb_true_iff in H. destruct H as [H | H];
    apply String.eqb_eq in H; subst nm; reflexivity.
Qed.

Lemma HasPrefix_refl (s : string) : GoStrings.HasPrefix s s = true.
Proof. induction s as [|c s IH]; simpl; [reflexivity | now rewrite Ascii.eqb_refl]. Qed.

Lemma Contains_append2 (pre a b post : string) :
  GoStrings.Contains (pre ++ a ++ b ++ post) (a ++ b) = true.
Proof. rewrite <- (append_assoc a b post). apply Contains_append. Qed.

(** A string that contains the byte [c] is cut at its first [c]. *)
Lemma Contains_byte_split (c : ascii) (s : string) :
  GoStrings.Contains s (String c "") = true ->
  exists a b : string, s = a ++ String c b /\ GoStrings.Contains a (String c "") = false.
Proof.
  induction s as [|x s IH]; [discriminate |].
  rewrite Contains_byte. destruct (Ascii.eqb_spec c x) as [<- | Hne].
  - intros _. now exists "", s.
  - cbn [orb]. intros H. destruct (IH H) as (a & b & -> & Ha).
    exists (String x a), b. split; [reflexivity |].
    rewrite Contains_byte, Ha. now destruct (Ascii.eqb_spec c x).
Qed.

Lemma Split_no_sep (c : ascii) (s : string) :
  GoStrings.Contains s (String c "") = false -> GoStrings.Split s c = [s].
Proof.
  intros H. pose proof (Split_spec c s) as Hs. now rewrite H in Hs.
Qed.

(** [Split] cuts at the first separator and goes on behind it. *)
Lemma Split_sep (c : ascii) (a b : string) :
  GoStrings.Contains a (String c "") = false ->
  GoStrings.Split (a ++ String c b) c = a :: GoStrings.Split b c.
Proof.
  induction a as [|x a IH]; intros Ha.
  - cbn [String.append GoStrings.Split]. now rewrite Ascii.eqb_refl.
  - rewrite Contains_byte in Ha. apply orb_false_iff in Ha. destruct Ha as [Hx Ha].
    cbn [String.append GoStrings.Split].
    rewrite (Ascii.eqb_sym x c), Hx, (IH Ha). reflexivity.
Qed.

(** Behind its first separator a string reads: the text up to the next
    separator, and a rest that is empty or begins with a separator. *)
Lemma query_split (c : ascii) (b : string) :
  exists query tail : string,
    b = query ++ tail
    /\ GoStrings.Contains query (String c "") = false
    /\ (tail = "" \/ GoStrings.HasPrefix tail (String c "") = true).
Proof.
  destruct (GoStrings.Contains b (String c "")) eqn:Hb.
  - destruct (Contains_byte_split c b Hb) as (query & t & -> & Hq).
    exists query, (String c t). split; [reflexivity |]. split; [exact Hq |].
    right. cbn [GoStrings.HasPrefix]. rewrite Ascii.eqb_refl. now destruct t.
  - exists b, "". rewrite append_nil_r. auto.
Qed.

(** The first two parts of a string with a separator. *)
Lemma Split_two (c : ascii) (before query tail : string) :
  GoStrings.Contains before (String c "") = false ->
  GoStrings.Contains query (String c "") = false ->
  tail = "" \/ GoStrings.HasPrefix tail (String c "") = true ->
  exists rest : list string,
    GoStrings.Split (before ++ String c (query ++ tail)) c = before :: query :: rest.
Proof.
  intros Hb Hq Ht. rewrite (Split_sep c before _ Hb).
  destruct Ht as [-> | Ht].
  - exists []. rewrite append_nil_r, (Split_no_sep c query Hq). reflexivity.
  - destruct tail as [|x t]; [discriminate |].
    cbn [GoStrings.HasPrefix] in Ht.
    destruct (Ascii.eqb_spec c x) as [<- | _]; [| discriminate].
    exists (GoStrings.Split t c). now rewrite (Split_sep c query t Hq).
Qed.

(** What the gateway does once the session of the host is read: the URL
    it hands to [http.NewRequest] and the cookie it sets, for a model of
    family 316 whose requested URL holds no question mark, ... *)
Lemma gateway_316_plain
    (NewRequest_error : string -> string -> option common.error)
    (send : common.Request -> string * option common.error)
    (fs : os.FS) (args args' : types.GlobalOptions)
    (httpMethod host requestUrl requestBody : string)
    (model : types.NetgearModel) (token : string) :
  common.ReadTokenAndModel2GlobalOptions fs args host = (args', model, token, None) ->
  common.IsModel316 model = true ->
  GoStrings.Contains requestUrl "?" = false ->
  common.DoHttpRequestAndReadResponse NewRequest_error send
    fs args httpMethod host requestUrl requestBody
  = match NewRequest_error httpMethod (requestUrl ++ "?Gambit=" ++ token) with
    | Some e => Returns (args', "", Some e)
    | None =>
        Returns
          (args',
           fst (send (common.mkRequest httpMethod (requestUrl ++ "?Gambit=" ++ token)
                        (<["Cookie" := ["gambitCookie=" ++ token]]> ∅) requestBody)),
           snd (send (common.mkRequest httpMethod (requestUrl ++ "?Gambit=" ++ token)
                        (<["Cookie" := ["gambitCookie=" ++ token]]> ∅) requestBody)))
    end.
Proof.
  intros Hread H316 Hq.
  pose proof (IsModel316_not_30x model H316) as H30x.
  unfold common.DoHttpRequestAndReadResponse. rewrite Hread, H316, Hq.
  unfold mbind, outcome_bind, bind, common.NewRequest.
  destruct (NewRequest_error httpMethod (requestUrl ++ "?Gambit=" ++ token));
    [reflexivity |].
  rewrite ?H30x, ?H316.
  unfold common.Header_Set. cbn [common.Method common.URL common.Header common.Body].
  now destruct (send _).
Qed.

(** ... and for one whose requested URL holds a question mark. *)
Lemma gateway_316_query
    (NewRequest_error : string -> string -> option common.error)
    (send : common.Request -> string * option common.error)
    (fs : os.FS) (args args' : types.GlobalOptions)
    (httpMethod host requestBody : string)
    (model : types.NetgearModel) (token : string)
    (before query tail : string) :
  common.ReadTokenAndModel2GlobalOptions fs args host = (args', model, token, None) ->
  common.IsModel316 model = true ->
  GoStrings.Contains before "?" = false ->
  GoStrings.Contains query "?" = false ->
  tail = "" \/ GoStrings.HasPrefix tail "?" = true ->
  common.DoHttpRequestAndReadResponse NewRequest_error send
    fs args httpMethod host (before ++ "?" ++ query ++ tail) requestBody
  = match NewRequest_error httpMethod (before ++ "?Gambit=" ++ token ++ "&" ++ query) with
    | Some e => Returns (args', "", Some e)
    | None =>
        Returns
          (args',
           fst (send (common.mkRequest httpMethod
                        (before ++ "?Gambit=" ++ token ++ "&" ++ query)
                        (<["Cookie" := ["gambitCookie=" ++ token]]> ∅) requestBody)),
           snd (send (common.mkRequest httpMethod
                        (before ++ "?Gambit=" ++ token ++ "&" ++ query)
                        (<["Cookie" := ["gambitCookie=" ++ token]]> ∅) requestBody)))
    end.
Proof.
  intros Hread H316 Hb Hq Ht.
  pose proof (IsModel316_not_30x model H316) as H30x.
  destruct (Split_two "?" before query tail Hb Hq Ht) as (rest & Hsplit).
  unfold common.DoHttpRequestAndReadResponse. rewrite Hread, H316.
  rewrite (Contains_append before "?" (query ++ tail)).
  change (before ++ "?" ++ query ++ tail) with (before ++ String "?" (query ++ tail)).
  rewrite Hsplit.
  unfold mbind, outcome_bind, bind, index, common.NewRequest. cbn [nth_error].
  destruct (NewRequest_error httpMethod (before ++ "?Gambit=" ++ token ++ "&" ++ query));
    [reflexivity |].
  rewrite ?H30x, ?H316.
  unfold common.Header_Set. cbn [common.Method common.URL common.Header common.Body].
  now destruct (send _).
Qed.

End split_facts.

(** C2.  Let the stored session of the host be [model] and [token], and
    let [http.NewRequest] accept the request.  For a model of family 316
    the request sent carries the cookie header [gambitCookie=<token>],
    and its URL is the requested one with the token merged into its query
    string: [<url>?Gambit=<token>] when the requested URL holds no
    question mark, and [<before>?Gambit=<token>&<query>] when the
    requested URL reads [<before>?<query>], [<before>] being its text up
    to the first question mark and [<query>] the text from there up to
    the next question mark or the end; every requested URL with a
    question mark reads so in exactly this way.  The method and the body
    are the requested ones.  For a model of family 30x the request sent
    carries the cookie header [SID=<token>], and its method, its URL and
    its body are the requested ones. *)
Theorem request_carries_token
    (NewRequest_error : string -> string -> option common.error)
    (send : common.Request -> string * option common.error)
    (fs : os.FS) (args args' : types.GlobalOptions)
    (httpMethod host requestUrl requestBody : string)
    (model : types.NetgearModel) (token : string) :
  common.ReadTokenAndModel2GlobalOptions fs args host = (args', model, token, None) ->
  (common.IsModel316 model = true ->
   (GoStrings.Contains requestUrl "?" = false ->
    NewRequest_error httpMethod (requestUrl ++ "?Gambit=" ++ token) = None ->
    common.DoHttpRequestAndReadResponse NewRequest_error send
      fs args httpMethod host requestUrl requestBody
    = Returns
        (args',
         fst (send (common.mkRequest httpMethod (requestUrl ++ "?Gambit=" ++ token)
                      (<["Cookie" := ["gambitCookie=" ++ token]]> ∅) requestBody)),
         snd (send (common.mkRequest httpMethod (requestUrl ++ "?Gambit=" ++ token)
                      (<["Cookie" := ["gambitCookie=" ++ token]]> ∅) requestBody))))
   /\ (forall before query tail : string,
       requestUrl = before ++ "?" ++ query ++ tail ->
       GoStrings.Contains before "?" = false ->
       GoStrings.Contains query "?" = false ->
       tail = "" \/ GoStrings.HasPrefix tail "?" = true ->
       NewRequest_error httpMethod (before ++ "?Gambit=" ++ token ++ "&" ++ query) = None ->
       common.DoHttpRequestAndReadResponse NewRequest_error send
         fs args httpMethod host requestUrl requestBody
       = Returns
           (args',
            fst (send (common.mkRequest httpMethod
                         (before ++ "?Gambit=" ++ token ++ "&" ++ query)
                         (<["Cookie" := ["gambitCookie=" ++ token]]> ∅) requestBody)),
            snd (send (common.mkRequest httpMethod
                         (before ++ "?Gambit=" ++ token ++ "&" ++ query)
                         (<["Cookie" := ["gambitCookie=" ++ token]]> ∅) requestBody))))
   /\ (GoStrings.Contains requestUrl "?" = true ->
       exists before query tail : string,
         requestUrl = before ++ "?" ++ query ++ tail
         /\ GoStrings.Contains before "?" = false
         /\ GoStrings.Contains query "?" = false
         /\ (tail = "" \/ GoStrings.HasPrefix tail "?" = true)))
  /\ (common.IsModel30x model = true ->
      NewRequest_error httpMethod requestUrl = None ->
      common.DoHttpRequestAndReadResponse NewRequest_error send
        fs args httpMethod host requestUrl requestBody
      = Returns
          (args',
           fst (send (common.mkRequest httpMethod requestUrl
                        (<["Cookie" := ["SID=" ++ token]]> ∅) requestBody)),
           snd (send (common.mkRequest httpMethod requestUrl
                        (<["Cookie" := ["SID=" ++ token]]> ∅) requestBody)))).
Proof.
  intros Hread. split.
  - intros H316. split; [| split].
    + intros Hq Hok.
      rewrite (gateway_316_plain NewRequest_error send fs args args' httpMethod host
                 requestUrl requestBody model token Hread H316 Hq).
      now rewrite Hok.
    + intros before query tail -> Hb Hq Ht Hok.
      rewrite (gateway_316_query NewRequest_error send fs args args' httpMethod host
                 requestBody model token before query tail Hread H316 Hb Hq Ht).
      now rewrite Hok.
    + intros Hq.
      destruct (Contains_byte_split "?" requestUrl Hq) as (before & b & -> & Hb).
      destruct (query_split "?" b) as (query & tail & -> & Hquery & Ht).
      exists before, query, tail. repeat split; assumption.
  - intros H30x Hok.
    unfold common.DoHttpRequestAndReadResponse. rewrite Hread.
    destruct (common.IsModel316 model) eqn:H316.
    + apply IsModel316_not_30x in H316. congruence.
    + unfold mbind, outcome_bind, bind, common.NewRequest.
      rewrite Hok, ?H30x.
      unfold common.Header_Set. cbn [common.Method common.URL common.Header common.Body].
      now destruct (send _).
Qed.

Lemma request_carries_token_witness :
  common.DoHttpRequestAndReadResponse
    (fun _ _ => None) (fun req => (common.URL req, None))
    (os.mkFS ∅ 18 "/tmp")
    (types.mkGlobalOptions false false "md" "" "GS316EP" "tok123")
    "GET" "switch" "http://switch/getPoePortStatus.cgi?page=1" ""
  = Returns (types.mkGlobalOptions false false "md" "" "GS316EP" "tok123",
             "http://switch/getPoePortStatus.cgi?Gambit=tok123&page=1", None)
  /\ common.DoHttpRequestAndReadResponse
       (fun _ _ => None) (fun req => (common.URL req, None))
       (os.mkFS ∅ 18 "/tmp")
       (types.mkGlobalOptions false false "md" "" "GS316EP" "tok123")
       "GET" "switch" "http://switch/getPoePortStatus.cgi" ""
     = Returns (types.mkGlobalOptions false false "md" "" "GS316EP" "tok123",
                "http://switch/getPoePortStatus.cgi?Gambit=tok123", None)
  /\ common.DoHttpRequestAndReadResponse
       (fun _ _ => None) (fun req => (common.URL req, None))
       (os.mkFS ∅ 18 "/tmp")
       (types.mkGlobalOptions false false "md" "" "GS308EP" "abc123")
       "GET" "switch" "http://switch/getPoePortStatus.cgi?page=1" ""
     = Returns (types.mkGlobalOptions false false "md" "" "GS308EP" "abc123",
                "http://switch/getPoePortStatus.cgi?page=1", None).
Proof.
  split; [| split].
  - destruct (request_carries_token
                (fun _ _ => None) (fun req => (common.URL req, None))
                (os.mkFS ∅ 18 "/tmp")
                (types.mkGlobalOptions false false "md" "" "GS316EP" "tok123")
                (types.mkGlobalOptions false false "md" "" "GS316EP" "tok123")
                "GET" "switch" "http://switch/getPoePortStatus.cgi?page=1" ""
                "GS316EP" "tok123" eq_refl) as [H316 _].
    destruct (H316 eq_refl) as (_ & Hquery & _).
    exact (Hquery "http://switch/getPoePortStatus.cgi" "page=1" ""
             eq_refl eq_refl eq_refl (or_introl eq_refl) eq_refl).
  - destruct (request_carries_token
                (fun _ _ => None) (fun req => (common.URL req, None))
                (os.mkFS ∅ 18 "/tmp")
                (types.mkGlobalOptions false false "md" "" "GS316EP" "tok123")
                (types.mkGlobalOptions false false "md" "" "GS316EP" "tok123")
                "GET" "switch" "http://switch/getPoePortStatus.cgi" ""
                "GS316EP" "tok123" eq_refl) as [H316 _].
    destruct (H316 eq_refl) as (Hplain & _ & _).
    exact (Hplain eq_refl eq_refl).
  - destruct (request_carries_token
                (fun _ _ => None) (fun req => (common.URL req, None))
                (os.mkFS ∅ 18 "/tmp")
                (types.mkGlobalOptions false false "md" "" "GS308EP" "abc123")
                (types.mkGlobalOptions false false "md" "" "GS308EP" "abc123")
                "GET" "switch" "http://switch/getPoePortStatus.cgi?page=1" ""
                "GS308EP" "abc123" eq_refl) as [_ H30x].
    exact (H30x eq_refl eq_refl).
Defined.

(** ** The token stores *)

Section token_file_facts.

Lemma String_eqb_append_sep (a b : string) (c : ascii) :
  String.eqb (a ++ String c b) "" = false.
Proof. destruct a; reflexivity. Qed.

Lemma SplitN2_no_sep (c : ascii) (s : string) :
  GoStrings.Contains s (String c "") = false -> GoStrings.SplitN2 s c = [s].
Proof.
  induction s as [|x s IH]; [reflexivity |].
  rewrite Contains_byte, (Ascii.eqb_sym c x). cbn [GoStrings.SplitN2].
  destruct (Ascii.eqb x c); [discriminate |].
  cbn [orb]. intros H. now rewrite (IH H).
Qed.

Lemma SplitN2_join (c : ascii) (a b : string) :
  GoStrings.Contains a (String c "") = false ->
  GoStrings.SplitN2 (a ++ String c b) c = [a; b].
Proof.
  induction a as [|x a IH].
  - intros _. simpl. now rewrite Ascii.eqb_refl.
  - rewrite Contains_byte, (Ascii.eqb_sym c x).
    change (String x a ++ String c b) with (String x (a ++ String c b)).
    cbn [GoStrings.SplitN2].
    destruct (Ascii.eqb x c); [discriminate |].
    cbn [orb]. intros H. now rewrite (IH H).
Qed.

(** A store that succeeded has left the record in the token file. *)
Lemma File_StoreToken_written
    (m : netgear.FileTokenManager) (fs fs1 : os.FS) (address tok : string)
    (mdl : netgear.Model) :
  netgear.File_StoreToken m fs address tok mdl = (fs1, None) ->
  exists mode : Z,
    os.nodes fs1 !! netgear.getTokenFilename m address
    = Some (os.File mode (mdl ++ ":" ++ tok)).
Proof.
  unfold netgear.File_StoreToken, os.MkdirAll, os.WriteFile.
  set (file := netgear.getTokenFilename m address).
  destruct (os.nodes fs !! netgear.cacheDir m) as [[dmode dcontent | dmode] |];
    try discriminate; cbn [os.nodes os.with_nodes os.umask].
  - destruct (os.nodes fs !! file) as [[fmode fcontent | fmode] |];
      try discriminate; intros [= <-]; cbn [os.nodes os.with_nodes];
      eexists; apply lookup_insert_eq.
  - destruct (<[netgear.cacheDir m := _]> (os.nodes fs) !! file)
      as [[fmode fcontent | fmode] |];
      try discriminate; intros [= <-]; cbn [os.nodes os.with_nodes];
      eexists; apply lookup_insert_eq.
Qed.

(** What [GetToken] answers on a record [family:rest]. *)
Lemma File_GetToken_record
    (IsSupported : netgear.Model -> bool)
    (m : netgear.FileTokenManager) (fs : os.FS) (address : string)
    (mode : Z) (family rest : string) :
  os.nodes fs !! netgear.getTokenFilename m address
  = Some (os.File mode (family ++ ":" ++ rest)) ->
  GoStrings.Contains family ":" = false ->
  netgear.File_GetToken IsSupported m fs address
  = if IsSupported (GoTrim.TrimSpace family)
    then Returns (GoTrim.TrimSpace rest, GoTrim.TrimSpace family, None)
    else Returns ("", "",
           Some (netgear.NewModelError
                   ("unknown model '" ++ GoTrim.TrimSpace family ++ "' in token file")
                   None)).
Proof.
  intros Hfile Hfamily.
  unfold netgear.File_GetToken, os.ReadFile. rewrite Hfile.
  change (family ++ ":" ++ rest) with (family ++ String ":" rest).
  rewrite String_eqb_append_sep.
  change (family ++ String ":" rest) with (family ++ ":" ++ rest) at 1.
  rewrite Contains_append. cbn [negb].
  rewrite (SplitN2_join ":" family rest Hfamily).
  cbn. now destruct (IsSupported _).
Qed.

Lemma File_GetToken_absent
    (IsSupported : netgear.Model -> bool)
    (m : netgear.FileTokenManager) (fs : os.FS) (address : string) :
  os.nodes fs !! netgear.getTokenFilename m address = None ->
  netgear.File_GetToken IsSupported m fs address
  = Returns ("", "",
      Some (netgear.NewAuthError "failed to read token file" (Some os.ENOENT))).
Proof.
  intros Hnone. unfold netgear.File_GetToken, os.ReadFile. now rewrite Hnone.
Qed.


(** A deletion that succeeded has left nothing under the token's name. *)
Lemma File_DeleteToken_gone
    (m : netgear.FileTokenManager) (fs fs1 : os.FS) (address : string) :
  netgear.File_DeleteToken m fs address = (fs1, None) ->
  os.nodes fs1 !! netgear.getTokenFilename m address = None.
Proof.
  unfold netgear.File_DeleteToken, os.Remove.
  set (file := netgear.getTokenFilename m address).
  destruct (os.nodes fs !! file) as [[fmode fcontent | dmode] |] eqn:Hfile.
  - intros [= <-]. apply lookup_delete_eq.
  - destruct (os.has_entries fs file); cbn [os.IsNotExist negb].
    + discriminate.
    + intros [= <-]. apply lookup_delete_eq.
  - cbn [os.IsNotExist negb]. now intros [= <-].
Qed.

(** [GetToken] indexes [parts] only after it has checked its length:
    it returns on every file system. *)
Lemma File_GetToken_returns
    (IsSupported : netgear.Model -> bool)
    (m : netgear.FileTokenManager) (fs : os.FS) (address : string) :
  exists r : string * netgear.Model * option netgear.error,
    netgear.File_GetToken IsSupported m fs address = Returns r.
Proof.
  unfold netgear.File_GetToken, os.ReadFile.
  destruct (os.nodes fs !! netgear.getTokenFilename m address)
    as [[mode content | mode] |]; eauto.
  destruct (String.eqb content ""); eauto.
  destruct (GoStrings.Contains content ":"); cbn [negb]; eauto.
  destruct (GoStrings.SplitN2 content ":") as [|p0 [|p1 [|p2 rest]]]; cbn; eauto.
  destruct (IsSupported _); eauto.
Qed.

End token_file_facts.

(** C5, as the code has it.  On the file-backed store, for a supported
    family whose name holds no colon and no white space at its ends, and
    a token without white space at its ends, a [StoreToken] that
    succeeded followed by [GetToken] for the same host answers the stored
    token and family; a [DeleteToken] after it succeeds; and after any
    [DeleteToken] that succeeded, [GetToken] answers the error of a token
    file that cannot be read, wrapping "no such file". *)
Theorem File_store_get_delete
    (IsSupported : netgear.Model -> bool)
    (m : netgear.FileTokenManager) (address : string) :
  (forall (fs fs1 : os.FS) (tok : string) (mdl : netgear.Model),
     IsSupported mdl = true ->
     GoStrings.Contains mdl ":" = false ->
     GoTrim.TrimSpace mdl = mdl ->
     GoTrim.TrimSpace tok = tok ->
     netgear.File_StoreToken m fs address tok mdl = (fs1, None) ->
     netgear.File_GetToken IsSupported m fs1 address = Returns (tok, mdl, None)
     /\ exists fs2 : os.FS, netgear.File_DeleteToken m fs1 address = (fs2, None))
  /\ (forall fs fs2 : os.FS,
        netgear.File_DeleteToken m fs address = (fs2, None) ->
        netgear.File_GetToken IsSupported m fs2 address
        = Returns ("", "",
            Some (netgear.NewAuthError "failed to read token file" (Some os.ENOENT)))).
Proof.
  split.
  - intros fs fs1 tok mdl Hsup Hcolon Hmdl Htok Hstore.
    destruct (File_StoreToken_written m fs fs1 address tok mdl Hstore) as [mode Hfile].
    split.
    + rewrite (File_GetToken_record IsSupported m fs1 address mode mdl tok Hfile Hcolon).
      now rewrite Hmdl, Htok, Hsup.
    + unfold netgear.File_DeleteToken, os.Remove. rewrite Hfile. eexists. reflexivity.
  - intros fs fs2 Hdelete. apply File_GetToken_absent.
    exact (File_DeleteToken_gone m fs fs2 address Hdelete).
Qed.

Lemma File_store_get_delete_witness :
  exists fs1 fs2 : os.FS,
    netgear.File_StoreToken (netgear.mkFileTokenManager "/home/u/.cache/go-netgear")
      (os.mkFS ∅ 18 "/tmp") "192.168.0.239" "abc123" "GS308EP" = (fs1, None)
    /\ netgear.File_GetToken common.IsSupportedModel
         (netgear.mkFileTokenManager "/home/u/.cache/go-netgear") fs1 "192.168.0.239"
       = Returns ("abc123", "GS308EP", None)
    /\ netgear.File_DeleteToken
         (netgear.mkFileTokenManager "/home/u/.cache/go-netgear") fs1 "192.168.0.239"
       = (fs2, None)
    /\ netgear.File_GetToken common.IsSupportedModel
         (netgear.mkFileTokenManager "/home/u/.cache/go-netgear") fs2 "192.168.0.239"
       = Returns ("", "",
           Some (netgear.NewAuthError "failed to read token file" (Some os.ENOENT))).
Proof.
  destruct (File_store_get_delete common.IsSupportedModel
              (netgear.mkFileTokenManager "/home/u/.cache/go-netgear") "192.168.0.239")
    as [Hstore Hdelete].
  destruct (netgear.File_StoreToken
              (netgear.mkFileTokenManager "/home/u/.cache/go-netgear")
              (os.mkFS ∅ 18 "/tmp") "192.168.0.239" "abc123" "GS308EP")
    as [fs1 err] eqn:E.
  assert (Herr : err = None).
  { apply (f_equal snd) in E. vm_compute in E. now subst err. }
  subst err.
  destruct (Hstore (os.mkFS ∅ 18 "/tmp") fs1 "abc123" "GS308EP"
              eq_refl eq_refl eq_refl eq_refl E) as [Hget [fs2 Hdel]].
  exists fs1, fs2. repeat split; [exact Hget | exact Hdel |].
  exact (Hdelete fs1 fs2 Hdel).
Defined.

(** C5 as stated fails for a token with white space at an end:
    [GetToken] trims what it read. *)
Lemma File_store_get_trims_token :
  exists fs1 : os.FS,
    netgear.File_StoreToken (netgear.mkFileTokenManager "/home/u/.cache/go-netgear")
      (os.mkFS ∅ 18 "/tmp") "192.168.0.239" " abc" "GS305EP" = (fs1, None)
    /\ netgear.File_GetToken common.IsSupportedModel
         (netgear.mkFileTokenManager "/home/u/.cache/go-netgear") fs1 "192.168.0.239"
       = Returns ("abc", "GS305EP", None)
    /\ "abc" <> " abc".
Proof.
  eexists. split; [vm_compute; reflexivity |].
  split; [vm_compute; reflexivity | discriminate].
Qed.

(** C6, as the code has it.  [GetToken] returns on every file system and
    never panics.
    When no record exists for the host it answers the authentication
    error "failed to read token file" wrapping "no such file".  On a
    record without separator it answers an authentication error too, with
    another message and no cause: the two differ in message and cause,
    not in kind.  On a record whose family field is no supported model it
    answers a model error, whose kind differs from the kind of the error
    for a missing record. *)
Theorem File_GetToken_corrupt
    (IsSupported : netgear.Model -> bool)
    (m : netgear.FileTokenManager) (fs : os.FS) (address : string) :
  (exists r : string * netgear.Model * option netgear.error,
     netgear.File_GetToken IsSupported m fs address = Returns r)
  /\ (os.nodes fs !! netgear.getTokenFilename m address = None ->
      netgear.File_GetToken IsSupported m fs address
      = Returns ("", "",
          Some (netgear.NewAuthError "failed to read token file" (Some os.ENOENT))))
  /\ (forall (mode : Z) (content : string),
        os.nodes fs !! netgear.getTokenFilename m address = Some (os.File mode content) ->
        GoStrings.Contains content ":" = false ->
        exists e : netgear.error,
          netgear.File_GetToken IsSupported m fs address = Returns ("", "", Some e)
          /\ netgear.kind e = netgear.AuthKind
          /\ netgear.cause e = None
          /\ (netgear.message e = "malformed token file"
              \/ netgear.message e
                 = "token file is empty, please upgrade your token file"))
  /\ (forall (mode : Z) (family rest : string),
        os.nodes fs !! netgear.getTokenFilename m address
        = Some (os.File mode (family ++ ":" ++ rest)) ->
        GoStrings.Contains family ":" = false ->
        IsSupported (GoTrim.TrimSpace family) = false ->
        exists e : netgear.error,
          netgear.File_GetToken IsSupported m fs address = Returns ("", "", Some e)
          /\ netgear.kind e = netgear.ModelKind
          /\ netgear.kind e
             <> netgear.kind
                  (netgear.NewAuthError "failed to read token file" (Some os.ENOENT))).
Proof.
  split; [| split; [| split]].
  - apply File_GetToken_returns.
  - apply File_GetToken_absent.
  - intros mode content Hfile Hsep.
    unfold netgear.File_GetToken, os.ReadFile. rewrite Hfile, Hsep.
    destruct (String.eqb content ""); eexists; cbn [negb];
      (split; [reflexivity |]); repeat split; auto.
  - intros mode family rest Hfile Hfamily Hunsupported.
    rewrite (File_GetToken_record IsSupported m fs address mode family rest Hfile Hfamily).
    rewrite Hunsupported. eexists. split; [reflexivity |].
    split; [reflexivity | discriminate].
Qed.

Lemma File_GetToken_corrupt_witness :
  netgear.File_GetToken common.IsSupportedModel
    (netgear.mkFileTokenManager "/home/u/.cache/go-netgear")
    (os.mkFS ∅ 18 "/tmp") "192.168.0.239"
  = Returns ("", "",
      Some (netgear.NewAuthError "failed to read token file" (Some os.ENOENT)))
  /\ (exists e : netgear.error,
        netgear.File_GetToken common.IsSupportedModel
          (netgear.mkFileTokenManager "/home/u/.cache/go-netgear")
          (os.mkFS
             {[ "/home/u/.cache/go-netgear/netgear-token-ad55b452.cache"
                := os.File 384 "GS308EP abc123" ]} 18 "/tmp")
          "192.168.0.239"
        = Returns ("", "", Some e)
        /\ netgear.kind e = netgear.AuthKind)
  /\ (exists e : netgear.error,
        netgear.File_GetToken common.IsSupportedModel
          (netgear.mkFileTokenManager "/home/u/.cache/go-netgear")
          (os.mkFS
             {[ "/home/u/.cache/go-netgear/netgear-token-ad55b452.cache"
                := os.File 384 ("GS999" ++ ":" ++ "abc123") ]} 18 "/tmp")
          "192.168.0.239"
        = Returns ("", "", Some e)
        /\ netgear.kind e = netgear.ModelKind).
Proof.
  split; [| split].
  - destruct (File_GetToken_corrupt common.IsSupportedModel
                (netgear.mkFileTokenManager "/home/u/.cache/go-netgear")
                (os.mkFS ∅ 18 "/tmp") "192.168.0.239") as (_ & Habsent & _).
    apply Habsent. reflexivity.
  - destruct (File_GetToken_corrupt common.IsSupportedModel
                (netgear.mkFileTokenManager "/home/u/.cache/go-netgear")
                (os.mkFS
                   {[ "/home/u/.cache/go-netgear/netgear-token-ad55b452.cache"
                      := os.File 384 "GS308EP abc123" ]} 18 "/tmp")
                "192.168.0.239") as (_ & _ & Hsep & _).
    destruct (Hsep 384 "GS308EP abc123") as (e & Hget & Hkind & _).
    + vm_compute. reflexivity.
    + reflexivity.
    + exists e. split; assumption.
  - destruct (File_GetToken_corrupt common.IsSupportedModel
                (netgear.mkFileTokenManager "/home/u/.cache/go-netgear")
                (os.mkFS
                   {[ "/home/u/.cache/go-netgear/netgear-token-ad55b452.cache"
                      := os.File 384 ("GS999" ++ ":" ++ "abc123") ]} 18 "/tmp")
                "192.168.0.239") as (_ & _ & _ & Hfamily).
    destruct (Hfamily 384 "GS999" "abc123") as (e & Hget & Hkind & _).
    + vm_compute. reflexivity.
    + reflexivity.
    + reflexivity.
    + exists e. split; assumption.
Defined.

(** C6 as stated fails for a record without separator: its error and the
    error for a missing record are of the same kind. *)
Lemma File_GetToken_malformed_same_kind :
  exists e_malformed e_missing : netgear.error,
    netgear.File_GetToken common.IsSupportedModel
      (netgear.mkFileTokenManager "/home/u/.cache/go-netgear")
      (os.mkFS
         {[ "/home/u/.cache/go-netgear/netgear-token-ad55b452.cache"
            := os.File 384 "GS308EP abc123" ]} 18 "/tmp")
      "192.168.0.239"
    = Returns ("", "", Some e_malformed)
    /\ netgear.File_GetToken common.IsSupportedModel
         (netgear.mkFileTokenManager "/home/u/.cache/go-netgear")
         (os.mkFS ∅ 18 "/tmp") "192.168.0.239"
       = Returns ("", "", Some e_missing)
    /\ netgear.kind e_malformed = netgear.kind e_missing.
Proof.
  eexists. eexists. split; [vm_compute; reflexivity |].
  split; [vm_compute; reflexivity | reflexivity].
Qed.



(** C10 as stated fails on the file-backed store: with a directory that
    is not empty at the token path of the host, no token is stored for
    the host ([GetToken] answers an error), yet [DeleteToken] answers an
    error as well. *)
Lemma File_DeleteToken_directory :
  (exists e : netgear.error,
     netgear.File_GetToken common.IsSupportedModel
       (netgear.mkFileTokenManager "/home/u/.cache/go-netgear")
       (os.mkFS
          {[ "/home/u/.cache/go-netgear/netgear-token-ad55b452.cache" := os.Dir 448;
             "/home/u/.cache/go-netgear/netgear-token-ad55b452.cache/lock"
             := os.File 384 "" ]} 18 "/tmp")
       "192.168.0.239"
     = Returns ("", "", Some e))
  /\ snd (netgear.File_DeleteToken
            (netgear.mkFileTokenManager "/home/u/.cache/go-netgear")
            (os.mkFS
               {[ "/home/u/.cache/go-netgear/netgear-token-ad55b452.cache" := os.Dir 448;
                  "/home/u/.cache/go-netgear/netgear-token-ad55b452.cache/lock"
                  := os.File 384 "" ]} 18 "/tmp")
            "192.168.0.239")
     = Some (netgear.NewAuthError "failed to delete token file" (Some os.ENOTEMPTY))
  /\ snd (netgear.File_DeleteToken
            (netgear.mkFileTokenManager "/home/u/.cache/go-netgear")
            (os.mkFS
               {[ "/home/u/.cache/go-netgear/netgear-token-ad55b452.cache" := os.Dir 448;
                  "/home/u/.cache/go-netgear/netgear-token-ad55b452.cache/lock"
                  := os.File 384 "" ]} 18 "/tmp")
            "192.168.0.239")
     <> None.
Proof.
  split; [| split].
  - eexists. vm_compute. reflexivity.
  - vm_compute. reflexivity.
  - vm_compute. discriminate.
Qed.

(** C9 at a failing input.  With the usual umask 022 and nothing stored
    before, the library's [StoreToken] creates the cache directory with
    mode 0700 and the token file with mode 0600, whereas [storeToken] of
    the command-line client creates its directory with mode 0700 and its
    token file with mode 0644, readable by group and others. *)
Theorem storeToken_file_mode :
  (exists fs1 : os.FS,
     netgear.File_StoreToken (netgear.mkFileTokenManager "/home/u/.cache/go-netgear")
       (os.mkFS ∅ 18 "/tmp") "192.168.0.239" "abc123" "GS308EP" = (fs1, None)
     /\ os.nodes fs1 !! "/home/u/.cache/go-netgear" = Some (os.Dir 448)
     /\ os.nodes fs1 !! "/home/u/.cache/go-netgear/netgear-token-ad55b452.cache"
        = Some (os.File 384 "GS308EP:abc123"))
  /\ (exists fs1 : os.FS,
        client.storeToken (os.mkFS ∅ 18 "/tmp")
          (types.mkGlobalOptions false false "md" "/home/u" "GS308EP" "")
          "192.168.0.239" "abc123" = (fs1, None)
        /\ os.nodes fs1 !! "/home/u/.config/ntgrrc" = Some (os.Dir 448)
        /\ os.nodes fs1 !! "/home/u/.config/ntgrrc/token-120a0294"
           = Some (os.File 420 "GS308EP:abc123")
        /\ 420 <> 384).
Proof.
  split; eexists.
  - split; [vm_compute; reflexivity |].
    split; vm_compute; reflexivity.
  - split; [vm_compute; reflexivity |].
    split; [vm_compute; reflexivity |].
    split; [vm_compute; reflexivity | discriminate].
Qed.

(** The command-line reader of the token file makes its three errors
    with [errors.New]: they differ in their text only. *)
Lemma ReadTokenAndModel2GlobalOptions_errors
    (fs : os.FS) (args : types.GlobalOptions) (host : string) :
  types.Model args = "" ->
  (os.nodes fs !! common.tokenFilename fs (types.TokenDir args) host = None ->
   common.ReadTokenAndModel2GlobalOptions fs args host
   = (args, "", "",
      Some (common.errors_New "no session (token) exists. please login first")))
  /\ (forall (mode : Z) (content : string),
        os.nodes fs !! common.tokenFilename fs (types.TokenDir args) host
        = Some (os.File mode content) ->
        GoStrings.Contains content ":" = false ->
        common.ReadTokenAndModel2GlobalOptions fs args host
        = (args, "", "",
           Some (common.errors_New
             "you did an upgrade from a former ntgrcc version. please login again")))
  /\ (forall (mode : Z) (family rest : string),
        os.nodes fs !! common.tokenFilename fs (types.TokenDir args) host
        = Some (os.File mode (family ++ ":" ++ rest)) ->
        GoStrings.Contains family ":" = false ->
        common.IsSupportedModel family = false ->
        common.ReadTokenAndModel2GlobalOptions fs args host
        = (args, "", "",
           Some (common.errors_New "unknown model stored in token. please login again"))).
Proof.
  intros Hmodel.
  unfold common.ReadTokenAndModel2GlobalOptions, os.ReadFile, common.separator.
  rewrite Hmodel. cbn [String.length Nat.ltb Nat.leb andb].
  split; [| split].
  - intros ->. reflexivity.
  - intros mode content -> Hsep. cbn [os.IsNotExist].
    now rewrite (SplitN2_no_sep ":" content Hsep).
  - intros mode family rest -> Hfamily Hunsupported. cbn [os.IsNotExist].
    change (family ++ ":" ++ rest) with (family ++ String ":" rest).
    rewrite (SplitN2_join ":" family rest Hfamily), Hunsupported. reflexivity.
Qed.

(** * Further properties of the code *)

(** ** The merge of password and seed *)

Section merge_facts.
Import codec.

Lemma length_interleave (p s : string) :
  String.length (interleave p s) = (String.length p + String.length s)%nat.
Proof.
  revert s. induction p as [|a p IH]; intros s; [reflexivity |].
  destruct s as [|b s]; simpl; [lia |]. rewrite IH. lia.
Qed.

Lemma interleave_inj (p : string) :
  forall s p' s' : string,
    String.length p = String.length p' ->
    String.length s = String.length s' ->
    interleave p s = interleave p' s' ->
    p = p' /\ s = s'.
Proof.
  induction p as [|a p IH]; intros s p' s' Hp Hs Heq.
  - destruct p'; [| discriminate]. simpl in Heq. now subst.
  - destruct p' as [|a' p']; [discriminate |].
    destruct s as [|b s], s' as [|b' s']; try discriminate.
    + simpl in Heq. now split.
    + simpl in Heq. injection Heq as -> -> Heq.
      destruct (IH s p' s') as [-> ->]; auto.
Qed.

End merge_facts.

(** The merge has as many bytes as the password and the seed together,
    and it loses nothing: two pairs of strings of the same lengths with
    the same merge are the same pair. *)
Theorem specialMerge_lossless (password seed : string) :
  String.length (codec.specialMerge password seed)
  = (String.length password + String.length seed)%nat
  /\ (forall password' seed' : string,
        String.length password = String.length password' ->
        String.length seed = String.length seed' ->
        codec.specialMerge password seed = codec.specialMerge password' seed' ->
        password = password' /\ seed = seed').
Proof.
  split.
  - rewrite specialMerge_interleave. apply length_interleave.
  - intros password' seed' Hp Hs. rewrite !specialMerge_interleave.
    now apply interleave_inj.
Qed.

Lemma specialMerge_lossless_witness :
  String.length (codec.specialMerge "None1234@" "1696951167") = 19%nat
  /\ "None1234@" = "None1234@" /\ "1696951167" = "1696951167".
Proof.
  destruct (specialMerge_lossless "None1234@" "1696951167") as [Hlen Hinj].
  split; [exact Hlen |].
  apply Hinj; reflexivity.
Defined.

(** ** Slices, offsets and the session cookie *)

Section slice_facts.

Lemma length_skip (i : nat) (s : string) :
  String.length (GoStrings.skip i s) = (String.length s - i)%nat.
Proof.
  revert s. induction i as [|i IH]; intros s.
  - simpl. lia.
  - destruct s as [|c s]; [reflexivity | exact (IH s)].
Qed.

Lemma skip_append (a b : string) : GoStrings.skip (String.length a) (a ++ b) = b.
Proof. induction a as [|c a IH]; [reflexivity | exact IH]. Qed.

Lemma take_append (a b : string) : GoTrim.take (String.length a) (a ++ b) = a.
Proof. induction a as [|c a IH]; simpl; [now destruct b | now rewrite IH]. Qed.

Lemma take_all (s : string) : GoTrim.take (String.length s) s = s.
Proof. induction s as [|c s IH]; simpl; [reflexivity | now rewrite IH]. Qed.

Lemma HasPrefix_split (s prefix : string) :
  GoStrings.HasPrefix s prefix = true -> exists rest : string, s = prefix ++ rest.
Proof.
  revert s. induction prefix as [|a p IH]; intros s H.
  - now exists s.
  - destruct s as [|b s]; [discriminate |]. simpl in H.
    destruct (Ascii.eqb_spec a b) as [-> |]; [| discriminate].
    destruct (IH s H) as [rest ->]. now exists rest.
Qed.

Lemma HasPrefix_short (s prefix : string) :
  (String.length s < String.length prefix)%nat -> GoStrings.HasPrefix s prefix = false.
Proof.
  revert s. induction prefix as [|a p IH]; intros s H; simpl in H; [lia |].
  destruct s as [|b s]; [reflexivity |]. simpl in *.
  destruct (Ascii.eqb a b); [apply IH; lia | reflexivity].
Qed.

Lemma Contains_short (s substr : string) :
  (String.length s < String.length substr)%nat -> GoStrings.Contains s substr = false.
Proof.
  induction s as [|c s IH]; intros H; cbn [GoStrings.Contains].
  - now rewrite HasPrefix_short.
  - rewrite HasPrefix_short by exact H. apply IH. simpl in H. lia.
Qed.

Lemma Index_byte_none (c : ascii) (s : string) :
  GoStrings.Contains s (String c "") = false -> GoSlices.Index s (String c "") = -1.
Proof.
  induction s as [|x s IH]; [reflexivity |].
  rewrite Contains_byte. cbn [GoSlices.Index GoStrings.HasPrefix].
  destruct (Ascii.eqb c x); [discriminate |].
  cbn [orb]. intros H. now rewrite (IH H).
Qed.

Lemma Index_byte_first (c : ascii) (a b : string) :
  GoStrings.Contains a (String c "") = false ->
  GoSlices.Index (a ++ String c b) (String c "") = Z.of_nat (String.length a).
Proof.
  induction a as [|x a IH].
  - intros _. simpl. rewrite Ascii.eqb_refl. now destruct b.
  - rewrite Contains_byte.
    change (String x a ++ String c b) with (String x (a ++ String c b)).
    cbn [GoSlices.Index GoStrings.HasPrefix].
    destruct (Ascii.eqb c x); [discriminate |].
    cbn [orb]. intros H. rewrite (IH H).
    destruct (Z.eqb_spec (Z.of_nat (String.length a)) (-1)); [lia |].
    cbn [String.length]. lia.
Qed.

Lemma slice_from (a b : string) :
  GoSlices.slice (a ++ b) (Z.of_nat (String.length a))
    (Z.of_nat (String.length (a ++ b))) = Returns b.
Proof.
  unfold GoSlices.slice. rewrite length_append.
  replace ((0 <=? _) && _ && _) with true
    by (symmetry; rewrite !andb_true_iff, !Z.leb_le; lia).
  rewrite Nat2Z.id, skip_append.
  replace (Z.to_nat _) with (String.length b) by lia.
  now rewrite take_all.
Qed.

Lemma slice_to (a b : string) :
  GoSlices.slice (a ++ b) 0 (Z.of_nat (String.length a)) = Returns a.
Proof.
  unfold GoSlices.slice. rewrite length_append.
  replace ((0 <=? _) && _ && _) with true
    by (symmetry; rewrite !andb_true_iff, !Z.leb_le; lia).
  rewrite Z.sub_0_r, Nat2Z.id. change (Z.to_nat 0) with 0%nat.
  change (GoStrings.skip 0 (a ++ b)) with (a ++ b).
  now rewrite take_append.
Qed.

End slice_facts.

(** [extractSessionToken] never panics.  For a header that does not
    start with [SID=] it answers the empty string; otherwise it answers
    what follows [SID=] up to the first semicolon, or all of it when
    there is none.  Its answer never holds a semicolon. *)
Theorem extractSessionToken_spec :
  (forall header : string,
     GoStrings.HasPrefix header "SID=" = false ->
     tokenextract.extractSessionToken header = Returns "")
  /\ (forall token attributes : string,
        GoStrings.Contains token ";" = false ->
        tokenextract.extractSessionToken ("SID=" ++ token ++ ";" ++ attributes)
        = Returns token)
  /\ (forall token : string,
        GoStrings.Contains token ";" = false ->
        tokenextract.extractSessionToken ("SID=" ++ token) = Returns token)
  /\ (forall header : string,
        exists token : string,
          tokenextract.extractSessionToken header = Returns token
          /\ GoStrings.Contains token ";" = false).
Proof.
  assert (Hcut : forall token attributes : string,
             GoStrings.Contains token ";" = false ->
             tokenextract.extractSessionToken ("SID=" ++ token ++ ";" ++ attributes)
             = Returns token).
  { intros token attributes Htoken.
    unfold tokenextract.extractSessionToken, tokenextract.sessionIdPrefixes.
    cbn [tokenextract.extract_loop].
    rewrite (HasPrefix_append "SID=" (token ++ ";" ++ attributes)).
    rewrite (slice_from "SID=" (token ++ ";" ++ attributes)).
    unfold mbind, outcome_bind, bind.
    change (token ++ ";" ++ attributes) with (token ++ String ";" attributes).
    rewrite (Index_byte_first ";" token attributes Htoken).
    destruct (Z.eqb_spec (Z.of_nat (String.length token)) (-1)); [lia |].
    cbn [negb]. apply slice_to. }
  assert (Hall : forall token : string,
             GoStrings.Contains token ";" = false ->
             tokenextract.extractSessionToken ("SID=" ++ token) = Returns token).
  { intros token Htoken.
    unfold tokenextract.extractSessionToken, tokenextract.sessionIdPrefixes.
    cbn [tokenextract.extract_loop].
    rewrite (HasPrefix_append "SID=" token), (slice_from "SID=" token).
    unfold mbind, outcome_bind, bind.
    now rewrite (Index_byte_none ";" token Htoken). }
  split; [| split; [exact Hcut | split; [exact Hall |]]].
  - intros header Hprefix.
    unfold tokenextract.extractSessionToken, tokenextract.sessionIdPrefixes.
    cbn [tokenextract.extract_loop]. now rewrite Hprefix.
  - intros header.
    destruct (GoStrings.HasPrefix header "SID=") eqn:Hprefix.
    + destruct (HasPrefix_split header "SID=" Hprefix) as [sidVal ->].
      destruct (GoStrings.Contains sidVal ";") eqn:Hsemi.
      * destruct (Contains_byte_split ";" sidVal Hsemi) as (token & rest & -> & Htoken).
        exists token. split; [exact (Hcut token rest Htoken) | exact Htoken].
      * exists sidVal. split; [exact (Hall sidVal Hsemi) | exact Hsemi].
    + exists "". split; [| reflexivity].
      unfold tokenextract.extractSessionToken, tokenextract.sessionIdPrefixes.
      cbn [tokenextract.extract_loop]. now rewrite Hprefix.
Qed.

Lemma extractSessionToken_spec_witness :
  tokenextract.extractSessionToken "Set-Cookie: none" = Returns ""
  /\ tokenextract.extractSessionToken ("SID=" ++ "abc123" ++ ";" ++ "Path=/") = Returns "abc123"
  /\ tokenextract.extractSessionToken ("SID=" ++ "abc123") = Returns "abc123".
Proof.
  destruct extractSessionToken_spec as (Hnone & Hcut & Hall & _).
  split; [| split].
  - apply Hnone. reflexivity.
  - apply Hcut. reflexivity.
  - apply Hall. reflexivity.
Defined.

(** ** The substring search of the configuration checker *)

Section contains_facts.

Lemma eqb_take_HasPrefix (substr t : string) :
  String.eqb (GoTrim.take (String.length substr) t) substr = GoStrings.HasPrefix t substr.
Proof.
  revert t. induction substr as [|a p IH]; intros t.
  - now destruct t.
  - destruct t as [|b t]; [reflexivity |]. simpl.
    rewrite (Ascii.eqb_sym b a). destruct (Ascii.eqb a b); [apply IH | reflexivity].
Qed.

Lemma slice_window (s substr : string) (k : nat) :
  (k <= String.length s)%nat ->
  (String.length substr <= String.length (GoStrings.skip k s))%nat ->
  GoSlices.slice s (Z.of_nat k) (Z.of_nat k + Z.of_nat (String.length substr))
  = Returns (GoTrim.take (String.length substr) (GoStrings.skip k s)).
Proof.
  intros Hk H. rewrite length_skip in H. unfold GoSlices.slice.
  replace ((0 <=? _) && _ && _) with true
    by (symmetry; rewrite !andb_true_iff, !Z.leb_le; lia).
  rewrite Nat2Z.id.
  replace (Z.to_nat _) with (String.length substr) by lia.
  reflexivity.
Qed.

(** The loop started at offset [k] answers whether [substr] occurs in
    [s] at offset [k] or later. *)
Lemma findSubstring_loop_spec (s substr : string) :
  forall (n k : nat),
    (k <= String.length s)%nat ->
    n = (String.length (GoStrings.skip k s) + 1 - String.length substr)%nat ->
    cli.findSubstring_loop n (Z.of_nat k) s substr
    = Returns (GoStrings.Contains (GoStrings.skip k s) substr).
Proof.
  induction n as [|n IH]; intros k Hk Hn.
  - cbn [cli.findSubstring_loop]. rewrite Contains_short; [reflexivity | lia].
  - cbn [cli.findSubstring_loop].
    rewrite slice_window by lia.
    unfold mbind, outcome_bind, bind. rewrite eqb_take_HasPrefix.
    destruct (GoStrings.HasPrefix (GoStrings.skip k s) substr) eqn:Hpre.
    + now rewrite (Contains_HasPrefix _ _ Hpre).
    + pose proof (skip_succ k s) as Hsucc.
      destruct (GoStrings.skip k s) as [|c t] eqn:Hskip.
      * destruct substr; [discriminate | simpl in Hn; lia].
      * cbn [GoStrings.Contains]. rewrite Hpre. cbn [orb].
        rewrite <- Hsucc.
        replace (Z.of_nat k + 1) with (Z.of_nat (S k)) by lia.
        pose proof (length_skip k s) as Hlen. rewrite Hskip in Hlen. simpl in Hlen.
        apply IH; [lia |]. rewrite Hsucc. simpl in Hn. lia.
Qed.

End contains_facts.

(** The hand-written [contains] of the configuration checker never
    slices out of range and agrees with [strings.Contains] on all
    strings, the empty ones included. *)
Theorem contains_is_Contains (s substr : string) :
  cli.contains s substr = Returns (GoStrings.Contains s substr).
Proof.
  unfold cli.contains.
  destruct (Nat.leb_spec (String.length substr) (String.length s)) as [Hle | Hlt].
  - change (GoSlices.slice s 0 (Z.of_nat (String.length substr)))
      with (GoSlices.slice s (Z.of_nat 0) (Z.of_nat 0 + Z.of_nat (String.length substr))).
    rewrite (slice_window s substr 0) by (simpl; lia).
    unfold mbind, outcome_bind, bind.
    change (GoStrings.skip 0 s) with s. rewrite eqb_take_HasPrefix.
    destruct (GoStrings.HasPrefix s substr) eqn:Hpre.
    + now rewrite (Contains_HasPrefix _ _ Hpre).
    + destruct (Nat.ltb_spec (String.length substr) (String.length s)) as [Hlt | Hge].
      * unfold cli.findSubstring.
        rewrite (findSubstring_loop_spec s substr _ 0); [reflexivity | lia |].
        simpl. lia.
      * destruct s as [|c t]; cbn [GoStrings.Contains]; rewrite Hpre; [reflexivity |].
        rewrite Contains_short; [reflexivity | simpl in *; lia].
  - unfold mbind, outcome_bind, bind.
    destruct (Nat.ltb_spec (String.length substr) (String.length s)); [lia |].
    now rewrite Contains_short.
Qed.

(** ** The test configuration *)

Section testconfig_facts.
Import testconfig.

Lemma ShouldSkipTest_loop_spec (skips : list string) (testName : string) :
  ShouldSkipTest_loop skips testName = true
  <-> exists skip : string, In skip skips /\ GoStrings.HasPrefix testName skip = true.
Proof.
  induction skips as [|skip rest IH]; cbn [ShouldSkipTest_loop].
  - split; [discriminate | intros (skip & [] & _)].
  - destruct (String.eqb_spec skip testName) as [-> | Hne]; cbn [orb].
    + split; [| reflexivity]. intros _. exists testName.
      split; [now left | apply HasPrefix_refl].
    + destruct (GoStrings.HasPrefix testName skip) eqn:Hpre.
      * split; [| reflexivity]. intros _. exists skip. split; [now left | exact Hpre].
      * rewrite IH. split.
        -- intros (s & Hin & Hs). exists s. split; [now right | exact Hs].
        -- intros (s & [<- | Hin] & Hs); [congruence |]. now exists s.
Qed.

Lemma validModel_loop_In (model : string) (models : list string) :
  validModel_loop model models = true <-> In model models.
Proof.
  induction models as [|m rest IH]; cbn [validModel_loop].
  - split; [discriminate | intros []].
  - destruct (String.eqb_spec model m) as [-> | Hne].
    + split; [now left | reflexivity].
    + rewrite IH. split; [now right | intros [<- | H]; [congruence | exact H]].
Qed.

Lemma validate_ports_None (name : string) (ports : list Z) :
  validate_ports name ports = None <-> Forall (fun port => 1 <= port <= 16) ports.
Proof.
  induction ports as [|port rest IH]; cbn [validate_ports].
  - split; [constructor | reflexivity].
  - destruct (Z.ltb_spec port 1) as [Hlo | Hlo],
             (Z.ltb_spec 16 port) as [Hhi | Hhi]; cbn [orb];
      try (split; [discriminate | intros Hall; inversion Hall; lia]).
    rewrite IH. split.
    + intros Hall. constructor; [lia | exact Hall].
    + intros Hall. now inversion Hall.
Qed.

Lemma validate_switches_None (switches : list SwitchConfig) :
  forall i : Z,
    validate_switches i switches = None
    <-> Forall (fun sw =>
                  Name sw <> "" /\ Address sw <> "" /\ Model sw <> ""
                  /\ Password sw <> "" /\ TestPorts sw <> []
                  /\ In (Model sw) validModels
                  /\ Forall (fun port => 1 <= port <= 16) (TestPorts sw))
               switches.
Proof.
  induction switches as [|sw rest IH]; intros i; cbn [validate_switches].
  - split; [constructor | reflexivity].
  - destruct (String.eqb_spec (Name sw) "") as [Hn | Hn];
      [split; [discriminate | intros H; inversion H; tauto] |].
    destruct (String.eqb_spec (Address sw) "") as [Ha | Ha];
      [split; [discriminate | intros H; inversion H; tauto] |].
    destruct (String.eqb_spec (Model sw) "") as [Hm | Hm];
      [split; [discriminate | intros H; inversion H; tauto] |].
    destruct (String.eqb_spec (Password sw) "") as [Hp | Hp];
      [split; [discriminate | intros H; inversion H; tauto] |].
    destruct (TestPorts sw) as [|port ports] eqn:Hports;
      [split; [discriminate | intros H; inversion H; tauto] |].
    cbn [List.length Nat.eqb].
    destruct (validModel_loop (Model sw) validModels) eqn:Hvalid; cbn [negb].
    + apply validModel_loop_In in Hvalid.
      destruct (validate_ports (Name sw) (port :: ports)) as [e |] eqn:Hvp.
      * split; [discriminate |]. intros H. inversion H as [|? ? Hsw _]; subst.
        destruct Hsw as (_ & _ & _ & _ & _ & _ & Hrange).
        rewrite Hports in Hrange.
        apply (proj2 (validate_ports_None (Name sw) _)) in Hrange. congruence.
      * apply (proj1 (validate_ports_None (Name sw) _)) in Hvp. rewrite IH. split.
        -- intros H. constructor; [| exact H]. rewrite Hports.
           repeat split; auto; discriminate.
        -- intros H. now inversion H.
    + split; [discriminate |]. intros H. inversion H as [|? ? Hsw _]; subst.
      destruct Hsw as (_ & _ & _ & _ & _ & Hin & _).
      apply validModel_loop_In in Hin. congruence.
Qed.

Lemma GetSwitchByName_loop_first (switches : list SwitchConfig) (name : string) :
  match GetSwitchByName_loop switches name with
  | Some sw =>
      exists before after : list SwitchConfig,
        switches = (before ++ sw :: after)%list
        /\ Name sw = name
        /\ Forall (fun other => Name other <> name) before
  | None => Forall (fun other => Name other <> name) switches
  end.
Proof.
  induction switches as [|sw rest IH]; cbn [GetSwitchByName_loop].
  - constructor.
  - destruct (String.eqb_spec (Name sw) name) as [Heq | Hne].
    + exists [], rest. repeat split; [exact Heq | constructor].
    + destruct (GetSwitchByName_loop rest name) as [found |].
      * destruct IH as (before & after & -> & Hname & Hbefore).
        exists (sw :: before), after. repeat split; [exact Hname |].
        now constructor.
      * now constructor.
Qed.

End testconfig_facts.

(** A test is skipped exactly when some entry of [SkipTests] is a prefix
    of its name; hence an empty entry skips every test. *)
Theorem ShouldSkipTest_prefix (s : testconfig.SwitchConfig) (testName : string) :
  (testconfig.ShouldSkipTest s testName = true
   <-> exists skip : string,
         In skip (testconfig.SkipTests s) /\ GoStrings.HasPrefix testName skip = true)
  /\ (In "" (testconfig.SkipTests s) -> testconfig.ShouldSkipTest s testName = true).
Proof.
  split.
  - apply ShouldSkipTest_loop_spec.
  - intros Hin. apply ShouldSkipTest_loop_spec. exists "". split; [exact Hin |].
    now destruct testName.
Qed.

Lemma ShouldSkipTest_prefix_witness :
  testconfig.ShouldSkipTest
    (testconfig.mkSwitchConfig "sw1" "192.168.0.239" "GS308EP" "secret" [1; 2] ["poe_cycle"; ""])
    "rate_limiting" = true.
Proof.
  apply (ShouldSkipTest_prefix
           (testconfig.mkSwitchConfig "sw1" "192.168.0.239" "GS308EP" "secret" [1; 2]
              ["poe_cycle"; ""]) "rate_limiting").
  simpl. auto.
Defined.

(** The two family tests of the test configuration never both hold, and
    on the seven model names the command-line code supports they agree
    with its own family tests. *)
Theorem SwitchConfig_families (s : testconfig.SwitchConfig) :
  testconfig.IsModel30x s && testconfig.IsModel316 s = false
  /\ (common.IsSupportedModel (testconfig.Model s) = true ->
      testconfig.IsModel30x s = common.IsModel30x (testconfig.Model s)
      /\ testconfig.IsModel316 s = common.IsModel316 (testconfig.Model s)).
Proof.
  unfold testconfig.IsModel30x, testconfig.IsModel316. split.
  - destruct (GoStrings.HasPrefix (testconfig.Model s) "GS30") eqn:H30; [| reflexivity].
    destruct (HasPrefix_split _ _ H30) as [rest ->]. reflexivity.
  - unfold common.IsSupportedModel, common.IsModel30x, common.IsModel316.
    intros H. repeat rewrite orb_true_iff in H.
    repeat match goal with
           | H : _ \/ _ |- _ => destruct H as [H | H]
           end;
      apply String.eqb_eq in H; rewrite H; split; reflexivity.
Qed.

Lemma SwitchConfig_families_witness :
  testconfig.IsModel30x
    (testconfig.mkSwitchConfig "sw1" "192.168.0.239" "GS308EPP" "secret" [1] [])
  = common.IsModel30x "GS308EPP"
  /\ testconfig.IsModel316
       (testconfig.mkSwitchConfig "sw1" "192.168.0.239" "GS308EPP" "secret" [1] [])
     = common.IsModel316 "GS308EPP".
Proof.
  apply (SwitchConfig_families
           (testconfig.mkSwitchConfig "sw1" "192.168.0.239" "GS308EPP" "secret" [1] [])).
  reflexivity.
Defined.

(** [Validate] accepts a configuration exactly when it lists at least
    one switch and every switch has a name, an address, a model, a
    password and at least one test port, its model is one of
    [validModels], and all its test ports lie between 1 and 16. *)
Theorem Validate_accepts (c : testconfig.TestConfig) :
  testconfig.Validate c = None
  <-> testconfig.Switches c <> []
      /\ Forall (fun sw =>
                   testconfig.Name sw <> "" /\ testconfig.Address sw <> ""
                   /\ testconfig.Model sw <> "" /\ testconfig.Password sw <> ""
                   /\ testconfig.TestPorts sw <> []
                   /\ In (testconfig.Model sw) testconfig.validModels
                   /\ Forall (fun port => 1 <= port <= 16) (testconfig.TestPorts sw))
                (testconfig.Switches c).
Proof.
  unfold testconfig.Validate.
  destruct (testconfig.Switches c) as [|sw rest] eqn:Hsw.
  - cbn. split; [discriminate | intros [H _]; congruence].
  - cbn [List.length Nat.eqb]. rewrite validate_switches_None.
    split; [intros H; split; [discriminate | exact H] | intros [_ H]; exact H].
Qed.

(** [GetSwitchByName] answers the first switch of the configuration that
    bears the name, and the error "switch with name <name> not found"
    exactly when no switch bears it. *)
Theorem GetSwitchByName_first (c : testconfig.TestConfig) (name : string) :
  (forall sw : testconfig.SwitchConfig,
     fst (testconfig.GetSwitchByName c name) = Some sw ->
     snd (testconfig.GetSwitchByName c name) = None
     /\ exists before after : list testconfig.SwitchConfig,
          testconfig.Switches c = (before ++ sw :: after)%list
          /\ testconfig.Name sw = name
          /\ Forall (fun other => testconfig.Name other <> name) before)
  /\ (fst (testconfig.GetSwitchByName c name) = None
      <-> Forall (fun other => testconfig.Name other <> name) (testconfig.Switches c))
  /\ (fst (testconfig.GetSwitchByName c name) = None ->
      snd (testconfig.GetSwitchByName c name)
      = Some (testconfig.fmt_Errorf ("switch with name " ++ name ++ " not found"))).
Proof.
  unfold testconfig.GetSwitchByName.
  pose proof (GetSwitchByName_loop_first (testconfig.Switches c) name) as H.
  destruct (testconfig.GetSwitchByName_loop (testconfig.Switches c) name) as [found |];
    cbn [fst snd].
  - split; [| split].
    + intros sw [= <-]. split; [reflexivity | exact H].
    + split; [discriminate |]. intros Hall.
      destruct H as (before & after & Heq & Hname & _).
      rewrite Heq in Hall. apply Forall_app in Hall as [_ Hall].
      inversion Hall; subst. congruence.
    + discriminate.
  - split; [| split].
    + discriminate.
    + split; [intros _; exact H | reflexivity].
    + reflexivity.
Qed.

Lemma GetSwitchByName_first_witness :
  snd (testconfig.GetSwitchByName
         (testconfig.mkTestConfig
            [testconfig.mkSwitchConfig "lab" "10.0.0.1" "GS305EP" "a" [1] [];
             testconfig.mkSwitchConfig "office" "10.0.0.2" "GS316EP" "b" [2] [];
             testconfig.mkSwitchConfig "office" "10.0.0.3" "GS308EP" "c" [3] []]
            (testconfig.mkTestOptions "" false false false))
         "office") = None
  /\ snd (testconfig.GetSwitchByName
            (testconfig.mkTestConfig [] (testconfig.mkTestOptions "" false false false))
            "office")
     = Some (testconfig.fmt_Errorf "switch with name office not found").
Proof.
  split.
  - destruct (GetSwitchByName_first
                (testconfig.mkTestConfig
                   [testconfig.mkSwitchConfig "lab" "10.0.0.1" "GS305EP" "a" [1] [];
                    testconfig.mkSwitchConfig "office" "10.0.0.2" "GS316EP" "b" [2] [];
                    testconfig.mkSwitchConfig "office" "10.0.0.3" "GS308EP" "c" [3] []]
                   (testconfig.mkTestOptions "" false false false))
                "office") as (Hfound & _ & _).
    apply (Hfound (testconfig.mkSwitchConfig "office" "10.0.0.2" "GS316EP" "b" [2] [])).
    reflexivity.
  - destruct (GetSwitchByName_first
                (testconfig.mkTestConfig [] (testconfig.mkTestOptions "" false false false))
                "office") as (_ & _ & Hnone).
    apply Hnone. reflexivity.
Defined.

Lemma Validate_accepts_witness :
  testconfig.Validate
    (testconfig.mkTestConfig
       [testconfig.mkSwitchConfig "lab" "10.0.0.1" "GS305EP" "secret" [1; 5] []]
       (testconfig.mkTestOptions "" false false false)) = None.
Proof.
  apply (proj2 (Validate_accepts _)). split; [discriminate |].
  repeat constructor; try discriminate; simpl; auto; lia.
Defined.

(** ** The payload that resets PoE ports *)

Section payload_facts.

Variable ports : list Z.

Lemma written_loop_In (i : Z) :
  poe.written_loop i ports = true <-> In (i + 1) ports.
Proof.
  induction ports as [|p rest IH]; cbn [poe.written_loop].
  - split; [discriminate | intros []].
  - destruct (Z.eqb_spec (p - 1) i) as [Heq | Hne].
    + split; [intros _; left; lia | reflexivity].
    + rewrite IH. split; [now right | intros [Heq | Hin]; [lia | exact Hin]].
Qed.

Lemma payload_loop_acc (n : nat) :
  forall (i : Z) (acc : string),
    poe.payload_loop n i ports acc = acc ++ poe.payload_loop n i ports "".
Proof.
  induction n as [|n IH]; intros i acc; cbn [poe.payload_loop].
  - now rewrite append_nil_r.
  - rewrite IH. rewrite (IH _ ("" ++ _)). now rewrite append_assoc.
Qed.

Lemma payload_loop_length (n : nat) :
  forall i : Z, String.length (poe.payload_loop n i ports "") = n.
Proof.
  induction n as [|n IH]; intros i; cbn [poe.payload_loop]; [reflexivity |].
  rewrite payload_loop_acc, length_append, IH.
  now destruct (poe.written_loop i ports).
Qed.

Lemma payload_loop_get (n : nat) :
  forall (i : Z) (k : nat),
    (k < n)%nat ->
    String.get k (poe.payload_loop n i ports "")
    = Some (if poe.written_loop (i + Z.of_nat k) ports then "1"%char else "0"%char).
Proof.
  induction n as [|n IH]; intros i k Hk; [lia |].
  cbn [poe.payload_loop]. rewrite payload_loop_acc.
  destruct k as [|k].
  - rewrite Z.add_0_r. now destruct (poe.written_loop i ports).
  - replace (i + Z.of_nat (S k)) with (i + 1 + Z.of_nat k) by lia.
    rewrite <- (IH (i + 1) k) by lia.
    now destruct (poe.written_loop i ports).
Qed.

End payload_facts.

(** The payload has one byte per PoE port of the switch: byte [k]
    (counted from 0) is ['1'] when port [k+1] is among the given ports
    and ['0'] otherwise; port numbers outside the switch leave no trace,
    and the order and repetition of the given ports do not matter. *)
Theorem createPortResetPayload_bits (gs316NoPoePorts : Z) (poePorts : list Z) :
  String.length (poe.createPortResetPayloadGs316EPx gs316NoPoePorts poePorts)
  = Z.to_nat gs316NoPoePorts
  /\ (forall k : Z,
        0 <= k < gs316NoPoePorts ->
        (In (k + 1) poePorts ->
         String.get (Z.to_nat k)
           (poe.createPortResetPayloadGs316EPx gs316NoPoePorts poePorts) = Some "1"%char)
        /\ (~ In (k + 1) poePorts ->
            String.get (Z.to_nat k)
              (poe.createPortResetPayloadGs316EPx gs316NoPoePorts poePorts)
            = Some "0"%char)).
Proof.
  unfold poe.createPortResetPayloadGs316EPx. split.
  - apply payload_loop_length.
  - intros k Hk.
    rewrite payload_loop_get by lia.
    rewrite Z2Nat.id, Z.add_0_l by lia.
    pose proof (written_loop_In poePorts k) as Hw.
    destruct (poe.written_loop k poePorts); split; intros H; try reflexivity.
    + exfalso. apply H, Hw. reflexivity.
    + apply Hw in H. discriminate.
Qed.

Lemma createPortResetPayload_bits_witness :
  String.get 2 (poe.createPortResetPayloadGs316EPx 16 [3; 17; 3; 1]) = Some "1"%char
  /\ String.get 1 (poe.createPortResetPayloadGs316EPx 16 [3; 17; 3; 1]) = Some "0"%char.
Proof.
  destruct (createPortResetPayload_bits 16 [3; 17; 3; 1]) as [_ Hbits].
  split.
  - apply (proj1 (Hbits 2 ltac:(lia))). simpl. auto.
  - apply (proj2 (Hbits 1 ltac:(lia))). simpl. lia.
Defined.

(** ** Fixtures and helpers of the tests *)

(** The port numbers the fixtures call valid for a model are exactly the
    numbers from 1 to its port count, in order, and the validation of the
    test configuration accepts them as test ports. *)
Theorem GetValidPortNumbers_range (model : string) :
  fixtures.GetValidPortNumbers model
  = map (fun i => Z.of_nat i + 1) (seq 0 (Z.to_nat (fixtures.GetPortCount model)))
  /\ (forall port : Z,
        In port (fixtures.GetValidPortNumbers model)
        <-> 1 <= port <= fixtures.GetPortCount model)
  /\ (forall name : string,
        testconfig.validate_ports name (fixtures.GetValidPortNumbers model) = None).
Proof.
  unfold fixtures.GetValidPortNumbers, fixtures.GetPortCount.
  destruct (String.eqb model "GS305EP" || String.eqb model "GS305EPP");
    [| destruct (String.eqb model "GS308EP" || String.eqb model "GS308EPP");
       [| destruct (String.eqb model "GS316EP" || String.eqb model "GS316EPP")]];
    (split; [reflexivity | split; [| reflexivity]]);
    intros port;
    match goal with |- In port ?l <-> _ =>
      let l' := eval vm_compute in l in change l with l' end;
    cbn [In Z.to_nat]; lia.
Qed.

Section helpers_facts.

Variables Time Duration Err Details : Type.

#[local] Abbreviation TestResult := (helpers.TestResult Time Duration Err Details).
#[local] Abbreviation TestReport := (helpers.TestReport Time Duration Err Details).

Lemma count_loop_spec (results : list TestResult) :
  forall report : TestReport,
    let report' := helpers.count_loop _ _ _ _ results report in
    helpers.PassedTests _ _ _ _ report'
    = helpers.PassedTests _ _ _ _ report
      + Z.of_nat (List.length (List.filter (helpers.Passed _ _ _ _) results))
    /\ helpers.FailedTests _ _ _ _ report'
       = helpers.FailedTests _ _ _ _ report
         + Z.of_nat (List.length
                       (List.filter (fun r => negb (helpers.Passed _ _ _ _ r)) results))
    /\ helpers.TotalTests _ _ _ _ report' = helpers.TotalTests _ _ _ _ report
    /\ helpers.SkippedTests _ _ _ _ report' = helpers.SkippedTests _ _ _ _ report
    /\ helpers.Results _ _ _ _ report' = helpers.Results _ _ _ _ report
    /\ helpers.r_StartTime _ _ _ _ report' = helpers.r_StartTime _ _ _ _ report
    /\ helpers.r_EndTime _ _ _ _ report' = helpers.r_EndTime _ _ _ _ report.
Proof.
  induction results as [|result rest IH]; intros report; cbn zeta.
  - cbn. repeat split; lia.
  - cbn [helpers.count_loop List.filter].
    destruct (helpers.Passed _ _ _ _ result); cbn [negb];
      match goal with |- context [helpers.count_loop _ _ _ _ rest ?r] =>
        destruct (IH r) as (Hp & Hf & Ht & Hs & Hr & Hst & Het) end;
      rewrite Hp, Hf, Ht, Hs, Hr, Hst, Het; cbn; repeat split; lia.
Qed.

Lemma filter_partition_length {A : Type} (f : A -> bool) (l : list A) :
  (List.length (List.filter f l) + List.length (List.filter (fun x => negb (f x)) l)
   = List.length l)%nat.
Proof.
  induction l as [|x l IH]; [reflexivity |]. cbn [List.filter].
  destruct (f x); cbn; lia.
Qed.

End helpers_facts.

(** [GenerateTestReport] never indexes out of range.  Its report lists
    the results as given; the passed and the failed tests are counted
    apart and add up to the total, which is the number of results; no
    test is counted as skipped; the report starts when the first result
    started and ends when the last one ended. *)
Theorem GenerateTestReport_counts
    (Time Duration Err Details : Type) (zeroTime : Time)
    (results : list (helpers.TestResult Time Duration Err Details)) :
  exists report : helpers.TestReport Time Duration Err Details,
    helpers.GenerateTestReport _ _ _ _ zeroTime results = Returns report
    /\ helpers.Results _ _ _ _ report = results
    /\ helpers.TotalTests _ _ _ _ report = Z.of_nat (List.length results)
    /\ helpers.PassedTests _ _ _ _ report
       = Z.of_nat (List.length (List.filter (helpers.Passed _ _ _ _) results))
    /\ helpers.FailedTests _ _ _ _ report
       = Z.of_nat (List.length
                     (List.filter (fun r => negb (helpers.Passed _ _ _ _ r)) results))
    /\ helpers.PassedTests _ _ _ _ report + helpers.FailedTests _ _ _ _ report
       = helpers.TotalTests _ _ _ _ report
    /\ helpers.SkippedTests _ _ _ _ report = 0
    /\ helpers.r_StartTime _ _ _ _ report
       = match results with
         | [] => zeroTime
         | first :: _ => helpers.StartTime _ _ _ _ first
         end
    /\ helpers.r_EndTime _ _ _ _ report
       = match List.rev results with
         | [] => zeroTime
         | last :: _ => helpers.EndTime _ _ _ _ last
         end.
Proof.
  unfold helpers.GenerateTestReport.
  destruct results as [|first rest] eqn:Hres.
  - eexists. split; [reflexivity |]. cbn. repeat split.
  - rewrite <- Hres.
    assert (Hlast : exists last prefix,
               results = (prefix ++ [last])%list).
    { subst results. destruct (exists_last (l := first :: rest)) as (prefix & last & ->);
        [discriminate | eauto]. }
    destruct Hlast as (last & prefix & Hlast).
    replace (0 <? List.length results)%nat with true
      by (subst results; reflexivity).
    assert (Hfirst : index results 0 = Returns first) by (subst results; reflexivity).
    assert (Hend : index results (List.length results - 1) = Returns last).
    { rewrite Hlast. unfold index. rewrite length_app. cbn [List.length].
      replace (List.length prefix + 1 - 1)%nat with (List.length prefix + 0)%nat by lia.
      now rewrite nth_error_app2, Nat.add_comm, Nat.add_sub by lia. }
    rewrite Hfirst, Hend. unfold mbind, outcome_bind, bind.
    eexists. split; [reflexivity |].
    match goal with |- context [helpers.count_loop _ _ _ _ results ?r] =>
      destruct (count_loop_spec Time Duration Err Details results r)
        as (Hp & Hf & Ht & Hs & Hr & Hst & Het) end.
    rewrite Hp, Hf, Ht, Hs, Hr, Hst, Het. cbn.
    pose proof (filter_partition_length (helpers.Passed Time Duration Err Details) results).
    repeat split; try lia.
    rewrite Hlast, rev_app_distr. reflexivity.
Qed.

(** [ComparePortState] reports no difference exactly when the two states
    agree on name, speed, flow control and the two rate limits; the port
    number is not compared. *)
Theorem ComparePortState_empty
    (PortSpeed : Type) (PortSpeed_eq : EqDecision PortSpeed)
    (show_PortSpeed : PortSpeed -> string)
    (expected actual : helpers.PortState (PortSpeed := PortSpeed)) :
  helpers.ComparePortState show_PortSpeed expected actual = []
  <-> helpers.ps_Name expected = helpers.ps_Name actual
      /\ helpers.Speed expected = helpers.Speed actual
      /\ helpers.FlowControl expected = helpers.FlowControl actual
      /\ helpers.IngressLimit expected = helpers.IngressLimit actual
      /\ helpers.EgressLimit expected = helpers.EgressLimit actual.
Proof.
  unfold helpers.ComparePortState, helpers.append.
  destruct (String.eqb_spec (helpers.ps_Name expected) (helpers.ps_Name actual));
    destruct (bool_decide_reflect (helpers.Speed expected = helpers.Speed actual));
    destruct (Bool.eqb_spec (helpers.FlowControl expected) (helpers.FlowControl actual));
    destruct (String.eqb_spec (helpers.IngressLimit expected) (helpers.IngressLimit actual));
    destruct (String.eqb_spec (helpers.EgressLimit expected) (helpers.EgressLimit actual));
    cbn [negb app]; split;
    solve [ intros _; auto | discriminate | tauto ].
Qed.

Lemma ComparePortState_empty_witness :
  helpers.ComparePortState (fun speed : nat => "auto")
    (helpers.mkPortState 1 "uplink" 0%nat true "unlimited" "100Mbps")
    (helpers.mkPortState 2 "uplink" 0%nat true "unlimited" "100Mbps") = [].
Proof.
  apply (proj2 (ComparePortState_empty nat _ (fun speed : nat => "auto")
                  (helpers.mkPortState 1 "uplink" 0%nat true "unlimited" "100Mbps")
                  (helpers.mkPortState 2 "uplink" 0%nat true "unlimited" "100Mbps"))).
  repeat split.
Defined.

(** ** The generic filter *)

Lemma Filter_loop_spec {T : Type} (test : T -> bool) (ss : list T) :
  forall ret : list T,
    generic.Filter_loop ss test ret = (ret ++ List.filter test ss)%list.
Proof.
  induction ss as [|s ss IH]; intros ret; cbn [generic.Filter_loop List.filter].
  - now rewrite app_nil_r.
  - rewrite IH. destruct (test s); [now rewrite <- app_assoc | reflexivity].
Qed.

(** [Filter] keeps exactly the elements that pass the test, in their
    order and with their multiplicity. *)
Theorem Filter_keeps {T : Type} (ss : list T) (test : T -> bool) :
  generic.Filter ss test = List.filter test ss
  /\ (forall s : T, In s (generic.Filter ss test) <-> In s ss /\ test s = true).
Proof.
  assert (H : generic.Filter ss test = List.filter test ss).
  { unfold generic.Filter. now rewrite Filter_loop_spec. }
  split; [exact H |]. intros s. rewrite H. apply filter_In.
Qed.

(** ** The token stores, continued *)

(** The in-memory store returns a stored token and family unchanged,
    whatever bytes they hold; [GetToken] for a host without token, or
    after [DeleteToken], answers the error "token not found"; storing or
    deleting for one host leaves every other host as it was. *)
Theorem Memory_store_get_delete
    (m : netgear.MemoryTokenManager) (address tok : string) (mdl : netgear.Model) :
  netgear.Memory_GetToken (fst (netgear.Memory_StoreToken m address tok mdl)) address
  = (tok, mdl, None)
  /\ netgear.Memory_GetToken (fst (netgear.Memory_DeleteToken m address)) address
     = ("", "", Some (netgear.NewAuthError "token not found" None))
  /\ (netgear.tokens m !! address = None ->
      netgear.Memory_GetToken m address
      = ("", "", Some (netgear.NewAuthError "token not found" None)))
  /\ (forall other : string,
        other <> address ->
        netgear.Memory_GetToken (fst (netgear.Memory_StoreToken m address tok mdl)) other
        = netgear.Memory_GetToken m other
        /\ netgear.Memory_GetToken (fst (netgear.Memory_DeleteToken m address)) other
           = netgear.Memory_GetToken m other).
Proof.
  unfold netgear.Memory_GetToken, netgear.Memory_StoreToken, netgear.Memory_DeleteToken.
  cbn [fst netgear.tokens]. repeat split.
  - now rewrite lookup_insert_eq.
  - now rewrite lookup_delete_eq.
  - now intros ->.
  - now rewrite lookup_insert_ne.
  - now rewrite lookup_delete_ne.
Qed.

Lemma Memory_store_get_delete_witness :
  netgear.Memory_GetToken netgear.NewMemoryTokenManager "192.168.0.239"
  = ("", "", Some (netgear.NewAuthError "token not found" None))
  /\ netgear.Memory_GetToken
       (fst (netgear.Memory_StoreToken netgear.NewMemoryTokenManager
               "192.168.0.239" " abc " "GS308EP")) "192.168.0.240"
     = netgear.Memory_GetToken netgear.NewMemoryTokenManager "192.168.0.240".
Proof.
  destruct (Memory_store_get_delete netgear.NewMemoryTokenManager
              "192.168.0.239" " abc " "GS308EP") as (_ & _ & Hnone & Hother).
  split.
  - apply Hnone. reflexivity.
  - apply Hother. discriminate.
Defined.

Section file_store_facts.

Variable IsSupported : netgear.Model -> bool.
Variable m : netgear.FileTokenManager.

Lemma File_GetToken_same_file (fs fs' : os.FS) (address address' : string) :
  os.nodes fs' !! netgear.getTokenFilename m address'
  = os.nodes fs !! netgear.getTokenFilename m address ->
  netgear.File_GetToken IsSupported m fs' address'
  = netgear.File_GetToken IsSupported m fs address.
Proof.
  intros H. unfold netgear.File_GetToken, os.ReadFile. now rewrite H.
Qed.



End file_store_facts.



(** The file-backed store keys a record by the 32-bit hash of the
    address, not by the address: when two addresses have the same token
    file, the token stored for one is what [GetToken] answers for the
    other, and [DeleteToken] for the other removes it. *)
Theorem File_store_shared_by_hash
    (IsSupported : netgear.Model -> bool) (m : netgear.FileTokenManager)
    (fs fs1 : os.FS) (address other tok : string) (mdl : netgear.Model) :
  netgear.getTokenFilename m other = netgear.getTokenFilename m address ->
  IsSupported mdl = true ->
  GoStrings.Contains mdl ":" = false ->
  GoTrim.TrimSpace mdl = mdl ->
  GoTrim.TrimSpace tok = tok ->
  netgear.File_StoreToken m fs address tok mdl = (fs1, None) ->
  netgear.File_GetToken IsSupported m fs1 other = Returns (tok, mdl, None)
  /\ netgear.File_GetToken IsSupported m
       (fst (netgear.File_DeleteToken m fs1 other)) address
     = Returns ("", "",
         Some (netgear.NewAuthError "failed to read token file" (Some os.ENOENT))).
Proof.
  intros Hsame Hsup Hcolon Hmdl Htok Hstore.
  destruct (File_StoreToken_written m fs fs1 address tok mdl Hstore) as [mode Hfile].
  split.
  - rewrite (File_GetToken_same_file IsSupported m fs1 fs1 address other)
      by now rewrite Hsame.
    rewrite (File_GetToken_record IsSupported m fs1 address mode mdl tok Hfile Hcolon).
    now rewrite Hmdl, Htok, Hsup.
  - apply File_GetToken_absent.
    unfold netgear.File_DeleteToken, os.Remove. rewrite Hsame, Hfile.
    cbn [fst os.nodes os.with_nodes]. apply lookup_delete_eq.
Qed.

Lemma File_store_shared_by_hash_witness :
  exists fs1 : os.FS,
    netgear.File_StoreToken (netgear.mkFileTokenManager "/home/u/.cache/go-netgear")
      (os.mkFS ∅ 18 "/tmp") "costarring" "abc123" "GS308EP" = (fs1, None)
    /\ netgear.File_GetToken common.IsSupportedModel
         (netgear.mkFileTokenManager "/home/u/.cache/go-netgear") fs1 "liquid"
       = Returns ("abc123", "GS308EP", None).
Proof.
  destruct (netgear.File_StoreToken
              (netgear.mkFileTokenManager "/home/u/.cache/go-netgear")
              (os.mkFS ∅ 18 "/tmp") "costarring" "abc123" "GS308EP")
    as [fs1 err] eqn:E.
  assert (Herr : err = None).
  { apply (f_equal snd) in E. vm_compute in E. now subst err. }
  subst err. exists fs1. split; [reflexivity |].
  apply (File_store_shared_by_hash common.IsSupportedModel
           (netgear.mkFileTokenManager "/home/u/.cache/go-netgear")
           (os.mkFS ∅ 18 "/tmp") fs1 "costarring" "liquid" "abc123" "GS308EP").
  - vm_compute. reflexivity.
  - vm_compute. reflexivity.
  - vm_compute. reflexivity.
  - vm_compute. reflexivity.
  - vm_compute. reflexivity.
  - exact E.
Defined.

(** ** The endpoint registry, continued *)

Section supported_facts.
Import netgear.

Variable IsModel30x IsModel316 : Model -> bool.
Variable er : EndpointRegistry.

Lemma supported_loop_lookup (endpoints : list EndpointType) :
  forall (supported : gmap string EndpointInfo) (endpointType : EndpointType),
    registry.supported_loop IsModel30x IsModel316 er endpoints supported !! endpointType
    = if existsb (String.eqb endpointType) endpoints
         && Supported (GetEndpoint IsModel30x IsModel316 er endpointType)
      then Some (GetEndpoint IsModel30x IsModel316 er endpointType)
      else supported !! endpointType.
Proof.
  induction endpoints as [|endpoint rest IH]; intros supported endpointType;
    cbn [registry.supported_loop existsb].
  - reflexivity.
  - rewrite IH.
    destruct (String.eqb_spec endpointType endpoint) as [-> | Hne]; cbn [orb].
    + destruct (Supported (GetEndpoint IsModel30x IsModel316 er endpoint)).
      * rewrite lookup_insert_eq.
        now destruct (existsb (String.eqb endpoint) rest).
      * now rewrite andb_false_r.
    + destruct (Supported (GetEndpoint IsModel30x IsModel316 er endpoint));
        rewrite ?lookup_insert_ne by congruence; reflexivity.
Qed.

(** Only the eight operations of [allEndpoints] have a supported
    descriptor. *)
Lemma Supported_listed (endpointType : EndpointType) :
  Supported (GetEndpoint IsModel30x IsModel316 er endpointType) = true ->
  existsb (String.eqb endpointType) registry.allEndpoints = true.
Proof.
  unfold GetEndpoint, getGS30xEndpoint, getGS316Endpoint, registry.allEndpoints.
  cbn [existsb].
  destruct (IsModel30x (er_model er)); [| destruct (IsModel316 (er_model er))];
    destruct (String.eqb endpointType EndpointLogin);
    destruct (String.eqb endpointType EndpointPOEStatus);
    destruct (String.eqb endpointType EndpointPOESettings);
    destruct (String.eqb endpointType EndpointPOEUpdate);
    destruct (String.eqb endpointType EndpointPortStatus);
    destruct (String.eqb endpointType EndpointPortSettings);
    destruct (String.eqb endpointType EndpointPortUpdate);
    destruct (String.eqb endpointType EndpointDashboard);
    cbn; intros H; try reflexivity; discriminate H.
Qed.

End supported_facts.

(** [GetSupportedEndpoints] maps an operation to its descriptor exactly
    when the descriptor is supported, that is, exactly when
    [ValidateEndpoint] accepts the operation; every descriptor in the map
    is the one [GetEndpoint] answers. *)
Theorem GetSupportedEndpoints_lookup
    (IsModel30x IsModel316 : netgear.Model -> bool)
    (er : netgear.EndpointRegistry) (endpointType : netgear.EndpointType) :
  registry.GetSupportedEndpoints IsModel30x IsModel316 er !! endpointType
  = (if netgear.Supported (netgear.GetEndpoint IsModel30x IsModel316 er endpointType)
     then Some (netgear.GetEndpoint IsModel30x IsModel316 er endpointType)
     else None)
  /\ (is_Some (registry.GetSupportedEndpoints IsModel30x IsModel316 er !! endpointType)
      <-> netgear.ValidateEndpoint IsModel30x IsModel316 er endpointType = None).
Proof.
  assert (Hlookup :
    registry.GetSupportedEndpoints IsModel30x IsModel316 er !! endpointType
    = if netgear.Supported (netgear.GetEndpoint IsModel30x IsModel316 er endpointType)
      then Some (netgear.GetEndpoint IsModel30x IsModel316 er endpointType)
      else None).
  { unfold registry.GetSupportedEndpoints. rewrite supported_loop_lookup.
    pose proof (Supported_listed IsModel30x IsModel316 er endpointType) as Hlisted.
    destruct (netgear.Supported _).
    - now rewrite Hlisted.
    - now rewrite andb_false_r. }
  split; [exact Hlookup |].
  rewrite Hlookup, ValidateEndpoint_lookup.
  destruct (netgear.Supported _); split; intros H; try reflexivity;
    try discriminate; eauto.
  destruct H as [? H]. discriminate.
Qed.

(** The supported operations by family: all eight for a 316 model; for a
    30x model login, the three PoE operations and the dashboard, but none
    of the three port operations; none at all for a model of neither
    family. *)
Theorem GetSupportedEndpoints_by_family
    (IsModel30x IsModel316 : netgear.Model -> bool) (er : netgear.EndpointRegistry) :
  (IsModel30x (netgear.er_model er) = true ->
   dom (registry.GetSupportedEndpoints IsModel30x IsModel316 er)
   = list_to_set [netgear.EndpointLogin; netgear.EndpointPOEStatus;
                  netgear.EndpointPOESettings; netgear.EndpointPOEUpdate;
                  netgear.EndpointDashboard])
  /\ (IsModel30x (netgear.er_model er) = false ->
      IsModel316 (netgear.er_model er) = true ->
      dom (registry.GetSupportedEndpoints IsModel30x IsModel316 er)
      = list_to_set registry.allEndpoints)
  /\ (IsModel30x (netgear.er_model er) = false ->
      IsModel316 (netgear.er_model er) = false ->
      registry.GetSupportedEndpoints IsModel30x IsModel316 er = ∅).
Proof.
  unfold registry.GetSupportedEndpoints, registry.allEndpoints.
  cbn [registry.supported_loop]. unfold netgear.GetEndpoint.
  split; [| split].
  - intros ->. cbn. set_solver.
  - intros -> ->. cbn. set_solver.
  - intros -> ->. reflexivity.
Qed.

Lemma GetSupportedEndpoints_by_family_witness :
  dom (registry.GetSupportedEndpoints common.IsModel30x common.IsModel316
         (netgear.NewEndpointRegistry "GS308EP"))
  = list_to_set [netgear.EndpointLogin; netgear.EndpointPOEStatus;
                 netgear.EndpointPOESettings; netgear.EndpointPOEUpdate;
                 netgear.EndpointDashboard]
  /\ dom (registry.GetSupportedEndpoints common.IsModel30x common.IsModel316
            (netgear.NewEndpointRegistry "GS316EPP"))
     = list_to_set registry.allEndpoints
  /\ registry.GetSupportedEndpoints common.IsModel30x common.IsModel316
       (netgear.NewEndpointRegistry "GS724T") = ∅.
Proof.
  split; [| split].
  - destruct (GetSupportedEndpoints_by_family common.IsModel30x common.IsModel316
                (netgear.NewEndpointRegistry "GS308EP")) as (H & _ & _).
    exact (H eq_refl).
  - destruct (GetSupportedEndpoints_by_family common.IsModel30x common.IsModel316
                (netgear.NewEndpointRegistry "GS316EPP")) as (_ & H & _).
    exact (H eq_refl eq_refl).
  - destruct (GetSupportedEndpoints_by_family common.IsModel30x common.IsModel316
                (netgear.NewEndpointRegistry "GS724T")) as (_ & _ & H).
    exact (H eq_refl eq_refl).
Defined.

(** ** The command-line client: token file and requests *)

Section cli_token_facts.
Import types.

Lemma IsSupportedModel_no_colon (modelName : string) :
  common.IsSupportedModel modelName = true ->
  GoStrings.Contains modelName ":" = false /\ modelName <> "".
Proof.
  unfold common.IsSupportedModel, common.IsModel30x, common.IsModel316.
  intros H. repeat rewrite orb_true_iff in H.
  repeat match goal with
         | H : _ \/ _ |- _ => destruct H as [H | H]
         end;
    apply String.eqb_eq in H; rewrite H; split; (reflexivity || discriminate).
Qed.

(** A [storeToken] that succeeded has left [model:token] in the token
    file of the host. *)
Lemma storeToken_written (fs fs1 : os.FS) (args : GlobalOptions) (host token : string) :
  client.storeToken fs args host token = (fs1, None) ->
  os.tmpdir fs1 = os.tmpdir fs
  /\ exists mode : Z,
       os.nodes fs1 !! common.tokenFilename fs (TokenDir args) host
       = Some (os.File mode (Model args ++ ":" ++ token)).
Proof.
  unfold client.storeToken, client.ensureConfigPathExists, os.MkdirAll, os.WriteFile.
  set (dir := common.dotConfigDirName fs (TokenDir args)).
  destruct (os.nodes fs !! dir) as [[dmode dcontent | dmode] |];
    cbn [option_map]; try discriminate.
  - set (file := common.tokenFilename fs (TokenDir args) host).
    destruct (os.nodes fs !! file) as [[fmode fcontent | fmode] |];
      cbn [option_map]; try discriminate; intros [= <-];
      (split; [reflexivity |]); eexists; apply lookup_insert_eq.
  - change (common.tokenFilename (os.with_nodes fs _) (TokenDir args) host)
      with (common.tokenFilename fs (TokenDir args) host).
    set (file := common.tokenFilename fs (TokenDir args) host).
    cbn [os.nodes os.with_nodes].
    destruct (<[dir := _]> (os.nodes fs) !! file) as [[fmode fcontent | fmode] |];
      cbn [option_map]; try discriminate; intros [= <-];
      (split; [reflexivity |]); eexists; apply lookup_insert_eq.
Qed.

(** What the reader answers on a record [family:rest] when the options
    do not hold both a model and a token. *)
Lemma ReadToken_record
    (fs : os.FS) (args : GlobalOptions) (host : string)
    (mode : Z) (family rest : string) :
  (0 <? String.length (Model args))%nat && (0 <? String.length (Token args))%nat = false ->
  os.nodes fs !! common.tokenFilename fs (TokenDir args) host
  = Some (os.File mode (family ++ ":" ++ rest)) ->
  GoStrings.Contains family ":" = false ->
  common.IsSupportedModel family = true ->
  common.ReadTokenAndModel2GlobalOptions fs args host
  = (mkGlobalOptions (Verbose args) (Quiet args) (OutputFormat args) (TokenDir args)
       family rest,
     family, rest, None).
Proof.
  intros Hpreset Hfile Hfamily Hsupported.
  unfold common.ReadTokenAndModel2GlobalOptions, os.ReadFile, common.separator.
  rewrite Hpreset, Hfile. cbn [os.IsNotExist].
  change (family ++ ":" ++ rest) with (family ++ String ":" rest).
  rewrite (SplitN2_join ":" family rest Hfamily), Hsupported. reflexivity.
Qed.

(** A model the reader has taken from the token file is a supported one. *)
Lemma ReadToken_supported
    (fs : os.FS) (args args' : GlobalOptions) (host : string)
    (model : NetgearModel) (token : string) :
  (0 <? String.length (Model args))%nat && (0 <? String.length (Token args))%nat = false ->
  common.ReadTokenAndModel2GlobalOptions fs args host = (args', model, token, None) ->
  common.IsSupportedModel model = true
  /\ args' = mkGlobalOptions (Verbose args) (Quiet args) (OutputFormat args)
               (TokenDir args) model token.
Proof.
  intros Hpreset. unfold common.ReadTokenAndModel2GlobalOptions. rewrite Hpreset.
  destruct (os.ReadFile fs _) as [bytes err].
  destruct (match err with Some e => os.IsNotExist e | None => false end);
    [discriminate |].
  destruct (GoStrings.SplitN2 bytes common.separator) as [|d0 [|d1 [|d2 ds]]];
    try discriminate.
  destruct (common.IsSupportedModel d0) eqn:Hsup; cbn [negb]; [| discriminate].
  intros [= <- <- <- _]. now split.
Qed.

End cli_token_facts.

(** The command-line client reads back what it stored: after a
    [storeToken] that succeeded under a supported model, the reader,
    given options for the same token directory that do not already hold
    both a model and a token, answers the stored model and the stored
    token byte for byte (white space and colons in the token included)
    and records both in the options. *)
Theorem storeToken_read_back
    (fs fs1 : os.FS) (args reader : types.GlobalOptions) (host token : string) :
  common.IsSupportedModel (types.Model args) = true ->
  client.storeToken fs args host token = (fs1, None) ->
  types.TokenDir reader = types.TokenDir args ->
  types.Model reader = "" \/ types.Token reader = "" ->
  common.ReadTokenAndModel2GlobalOptions fs1 reader host
  = (types.mkGlobalOptions (types.Verbose reader) (types.Quiet reader)
       (types.OutputFormat reader) (types.TokenDir reader) (types.Model args) token,
     types.Model args, token, None).
Proof.
  intros Hsupported Hstore Hdir Hpreset.
  destruct (storeToken_written fs fs1 args host token Hstore) as [Htmp [mode Hfile]].
  destruct (IsSupportedModel_no_colon _ Hsupported) as [Hcolon _].
  apply (ReadToken_record fs1 reader host mode); [| | exact Hcolon | exact Hsupported].
  - destruct Hpreset as [-> | ->]; [reflexivity | apply andb_false_r].
  - unfold common.tokenFilename, common.dotConfigDirName in *.
    rewrite Htmp, Hdir. exact Hfile.
Qed.

Lemma storeToken_read_back_witness :
  exists fs1 : os.FS,
    client.storeToken (os.mkFS ∅ 18 "/tmp")
      (types.mkGlobalOptions false false "md" "/home/u" "GS308EP" "")
      "192.168.0.239" " a:b " = (fs1, None)
    /\ common.ReadTokenAndModel2GlobalOptions fs1
         (types.mkGlobalOptions false false "md" "/home/u" "" "") "192.168.0.239"
       = (types.mkGlobalOptions false false "md" "/home/u" "GS308EP" " a:b ",
          "GS308EP", " a:b ", None).
Proof.
  destruct (client.storeToken (os.mkFS ∅ 18 "/tmp")
              (types.mkGlobalOptions false false "md" "/home/u" "GS308EP" "")
              "192.168.0.239" " a:b ") as [fs1 err] eqn:E.
  assert (Herr : err = None).
  { apply (f_equal snd) in E. vm_compute in E. now subst err. }
  subst err. exists fs1. split; [reflexivity |].
  exact (storeToken_read_back (os.mkFS ∅ 18 "/tmp") fs1
           (types.mkGlobalOptions false false "md" "/home/u" "GS308EP" "")
           (types.mkGlobalOptions false false "md" "/home/u" "" "")
           "192.168.0.239" " a:b " eq_refl E eq_refl (or_introl eq_refl)).
Defined.

(** Once the reader has answered a model and a token that is not empty,
    the options it leaves hold both, and every later call with these
    options answers the same pair without looking at any token file,
    whatever the file system and the host. *)
Theorem ReadToken_cached
    (fs : os.FS) (args args' : types.GlobalOptions) (host : string)
    (model : types.NetgearModel) (token : string) :
  common.ReadTokenAndModel2GlobalOptions fs args host = (args', model, token, None) ->
  token <> "" ->
  forall (fs' : os.FS) (host' : string),
    common.ReadTokenAndModel2GlobalOptions fs' args' host' = (args', model, token, None).
Proof.
  intros Hread Htoken fs' host'.
  assert (Hargs : types.Model args' = model /\ types.Token args' = token /\ model <> "").
  { destruct ((0 <? String.length (types.Model args))%nat
              && (0 <? String.length (types.Token args))%nat) eqn:Hpreset.
    - unfold common.ReadTokenAndModel2GlobalOptions in Hread. rewrite Hpreset in Hread.
      injection Hread as <- <- <-. repeat split.
      apply andb_true_iff in Hpreset as [Hm _].
      destruct (types.Model args); [discriminate | discriminate].
    - destruct (ReadToken_supported fs args args' host model token Hpreset Hread)
        as [Hsup ->].
      repeat split. exact (proj2 (IsSupportedModel_no_colon _ Hsup)). }
  destruct Hargs as (Hm & Ht & Hne).
  unfold common.ReadTokenAndModel2GlobalOptions. rewrite Hm, Ht.
  destruct model; [congruence |]. destruct token; [congruence |]. reflexivity.
Qed.

Lemma ReadToken_cached_witness :
  common.ReadTokenAndModel2GlobalOptions (os.mkFS ∅ 18 "/tmp")
    (types.mkGlobalOptions false false "md" "" "GS316EP" "tok123") "another-host"
  = (types.mkGlobalOptions false false "md" "" "GS316EP" "tok123",
     "GS316EP", "tok123", None).
Proof.
  apply (ReadToken_cached (os.mkFS ∅ 18 "/tmp")
           (types.mkGlobalOptions false false "md" "" "GS316EP" "tok123")
           (types.mkGlobalOptions false false "md" "" "GS316EP" "tok123")
           "switch" "GS316EP" "tok123" eq_refl).
  discriminate.
Defined.



(** [DoHttpRequestAndReadResponse] returns whenever the session comes
    from the token file, because the reader accepts supported models
    only; it panics with "model not supported" when the options
    themselves carry a token together with a model of neither family and
    [http.NewRequest] accepts the request. *)
Theorem DoHttpRequest_panics
    (NewRequest_error : string -> string -> option common.error)
    (send : common.Request -> string * option common.error)
    (fs : os.FS) (args : types.GlobalOptions)
    (httpMethod host requestUrl requestBody : string) :
  (types.Model args = "" \/ types.Token args = "" ->
   exists r : types.GlobalOptions * string * option common.error,
     common.DoHttpRequestAndReadResponse NewRequest_error send
       fs args httpMethod host requestUrl requestBody = Returns r)
  /\ (types.Model args <> "" -> types.Token args <> "" ->
      common.IsSupportedModel (types.Model args) = false ->
      NewRequest_error httpMethod requestUrl = None ->
      common.DoHttpRequestAndReadResponse NewRequest_error send
        fs args httpMethod host requestUrl requestBody
      = Panics "model not supported").
Proof.
  split.
  - intros Hpreset.
    assert (Hp : (0 <? String.length (types.Model args))%nat
                 && (0 <? String.length (types.Token args))%nat = false)
      by (destruct Hpreset as [-> | ->]; [reflexivity | now rewrite andb_false_r]).
    unfold common.DoHttpRequestAndReadResponse.
    destruct (common.ReadTokenAndModel2GlobalOptions fs args host)
      as [[[args' model] token] [e |]] eqn:Hread; [eauto |].
    destruct (ReadToken_supported fs args args' host model token Hp Hread) as [Hsup _].
    unfold common.IsSupportedModel in Hsup.
    pose proof (Split_spec "?" requestUrl) as Hsplit.
    unfold mbind, outcome_bind, bind, common.NewRequest.
    destruct (common.IsModel316 model) eqn:H316.
    + rewrite (IsModel316_not_30x model H316).
      destruct (GoStrings.Contains requestUrl "?").
      * destruct Hsplit as (s0 & s1 & rest & -> & _). cbn [index nth_error].
        destruct (NewRequest_error _ _); [eauto |]. destruct (send _). eauto.
      * destruct (NewRequest_error _ _); [eauto |]. destruct (send _). eauto.
    + rewrite orb_false_r in Hsup. rewrite Hsup.
      destruct (NewRequest_error _ _); [eauto |]. destruct (send _). eauto.
  - intros Hmodel Htoken Hunsupported Hok.
    unfold common.DoHttpRequestAndReadResponse, common.ReadTokenAndModel2GlobalOptions.
    replace ((0 <? String.length (types.Model args))%nat
             && (0 <? String.length (types.Token args))%nat) with true
      by (destruct (types.Model args) eqn:Em; [congruence |];
          destruct (types.Token args) eqn:Et; [congruence | reflexivity]).
    unfold common.IsSupportedModel in Hunsupported.
    apply orb_false_iff in Hunsupported as [H30x H316].
    rewrite H316. unfold mbind, outcome_bind, bind, common.NewRequest.
    now rewrite Hok, H30x.
Qed.

Lemma DoHttpRequest_panics_witness :
  (exists r : types.GlobalOptions * string * option common.error,
     common.DoHttpRequestAndReadResponse (fun _ _ => None) (fun req => ("ok", None))
       (os.mkFS ∅ 18 "/tmp") (types.mkGlobalOptions false false "md" "" "GS724T" "")
       "GET" "switch" "http://switch/" "" = Returns r)
  /\ common.DoHttpRequestAndReadResponse (fun _ _ => None) (fun req => ("ok", None))
       (os.mkFS ∅ 18 "/tmp") (types.mkGlobalOptions false false "md" "" "GS724T" "tok")
       "GET" "switch" "http://switch/" "" = Panics "model not supported".
Proof.
  split.
  - destruct (DoHttpRequest_panics (fun _ _ => None) (fun req => ("ok", None))
                (os.mkFS ∅ 18 "/tmp") (types.mkGlobalOptions false false "md" "" "GS724T" "")
                "GET" "switch" "http://switch/" "") as [Hreturns _].
    apply Hreturns. now right.
  - destruct (DoHttpRequest_panics (fun _ _ => None) (fun req => ("ok", None))
                (os.mkFS ∅ 18 "/tmp") (types.mkGlobalOptions false false "md" "" "GS724T" "tok")
                "GET" "switch" "http://switch/" "") as [_ Hpanics].
    apply Hpanics; [discriminate | discriminate | reflexivity | reflexivity].
Defined.

(** ** Detection of the model, continued *)

(** What the detectors can answer.  The command-line detector answers
    [GS316EPP], [GS316EP], [GS30xEPx] or nothing, and a 316 name only when
    the body holds it.  The library detector answers one of the six
    specific names, which the body then holds, or [GS30xEPx], or nothing.
    Every name either detector answers is one the command-line code
    supports. *)
Theorem detection_range (ToLower : string -> string) (body : string) :
  (models.detectNetgearModelFromResponse ToLower body = types.GS316EPP
   /\ GoStrings.Contains body "GS316EPP" = true
   \/ models.detectNetgearModelFromResponse ToLower body = types.GS316EP
      /\ GoStrings.Contains body "GS316EP" = true
   \/ models.detectNetgearModelFromResponse ToLower body = types.GS30xEPx
   \/ models.detectNetgearModelFromResponse ToLower body = "")
  /\ (In (parser.DetectFromHTML body) parser.specificModels
      /\ GoStrings.Contains body (parser.DetectFromHTML body) = true
      \/ parser.DetectFromHTML body = "GS30xEPx"
      \/ parser.DetectFromHTML body = "")
  /\ (models.detectNetgearModelFromResponse ToLower body = ""
      \/ common.IsSupportedModel (models.detectNetgearModelFromResponse ToLower body) = true)
  /\ (parser.DetectFromHTML body = ""
      \/ common.IsSupportedModel (parser.DetectFromHTML body) = true).
Proof.
  assert (Hcli :
    models.detectNetgearModelFromResponse ToLower body = types.GS316EPP
    /\ GoStrings.Contains body "GS316EPP" = true
    \/ models.detectNetgearModelFromResponse ToLower body = types.GS316EP
       /\ GoStrings.Contains body "GS316EP" = true
    \/ models.detectNetgearModelFromResponse ToLower body = types.GS30xEPx
    \/ models.detectNetgearModelFromResponse ToLower body = "").
  { unfold models.detectNetgearModelFromResponse.
    destruct (GoStrings.Contains (ToLower body) "<title>"); cbn [andb]; [| tauto].
    destruct (GoStrings.Contains body "GS316EPP"); [tauto |].
    destruct (GoStrings.Contains body "GS316EP"); [tauto |].
    destruct (GoStrings.Contains body "Redirect to Login"); tauto. }
  assert (Hlib :
    In (parser.DetectFromHTML body) parser.specificModels
    /\ GoStrings.Contains body (parser.DetectFromHTML body) = true
    \/ parser.DetectFromHTML body = "GS30xEPx"
    \/ parser.DetectFromHTML body = "").
  { unfold parser.DetectFromHTML, parser.specificModels.
    cbn [parser.firstContained].
    repeat match goal with
           | |- context [if GoStrings.Contains body ?m then Some _ else _] =>
               destruct (GoStrings.Contains body m) eqn:?;
                 [left; split; [cbn; tauto | assumption] |]
           end.
    destruct (GoStrings.Contains body "Redirect to Login" || GoStrings.Contains body "redirect");
      tauto. }
  split; [exact Hcli | split; [exact Hlib | split]].
  - destruct Hcli as [[-> _] | [[-> _] | [-> | ->]]]; auto.
  - destruct Hlib as [[Hin _] | [-> | ->]]; auto.
    right. cbn in Hin.
    repeat match goal with
           | H : _ \/ _ |- _ => destruct H as [H | H]
           end;
      try contradiction; rewrite <- Hin; reflexivity.
Qed.

Lemma GetSupportedEndpoints_lookup_witness :
  is_Some (registry.GetSupportedEndpoints common.IsModel30x common.IsModel316
             (netgear.NewEndpointRegistry "GS316EP") !! netgear.EndpointPortUpdate).
Proof.
  apply (proj2 (proj2 (GetSupportedEndpoints_lookup common.IsModel30x common.IsModel316
                         (netgear.NewEndpointRegistry "GS316EP")
                         netgear.EndpointPortUpdate))).
  reflexivity.
Defined.

Lemma Filter_keeps_witness :
  In 4 (generic.Filter [1; 4; 7; 4] (fun n => n =? 4)).
Proof.
  apply (proj2 (proj2 (Filter_keeps [1; 4; 7; 4] (fun n => n =? 4)) 4)).
  split; [simpl; auto | reflexivity].
Defined.

Lemma GetValidPortNumbers_range_witness :
  In 5 (fixtures.GetValidPortNumbers "GS305EPP").
Proof.
  apply (proj2 (proj1 (proj2 (GetValidPortNumbers_range "GS305EPP")) 5)).
  change (fixtures.GetPortCount "GS305EPP") with 5. lia.
Defined.

(** ** References to environment variables in the test configuration *)

Section envexpand_facts.

Lemma Index_none (substr s : string) :
  GoStrings.Contains s substr = false -> GoSlices.Index s substr = -1.
Proof.
  induction s as [|c s IH]; cbn [GoStrings.Contains GoSlices.Index].
  - rewrite orb_false_r. now intros ->.
  - intros H. apply orb_false_iff in H as [-> H]. now rewrite (IH H).
Qed.

Lemma HasPrefix_dollar (c : ascii) (pre x : string) :
  GoStrings.Contains (String c pre) "${" = false ->
  GoStrings.HasPrefix (String c (pre ++ "${" ++ x)) "${" = false.
Proof.
  cbn [GoStrings.Contains]. intros H. apply orb_false_iff in H as [H _].
  cbn [GoStrings.HasPrefix] in *.
  destruct (Ascii.eqb "$" c); [| reflexivity].
  destruct pre as [|d pre]; [reflexivity |].
  cbn [String.append GoStrings.HasPrefix]. cbn [GoStrings.HasPrefix] in H.
  destruct (Ascii.eqb "{" d); [| reflexivity].
  destruct pre; cbn [GoStrings.HasPrefix] in H; discriminate H.
Qed.

Lemma Index_dollar_first (pre x : string) :
  GoStrings.Contains pre "${" = false ->
  GoSlices.Index (pre ++ "${" ++ x) "${" = Z.of_nat (String.length pre).
Proof.
  induction pre as [|c pre IH]; intros H.
  - destruct x; reflexivity.
  - change (String c pre ++ "${" ++ x) with (String c (pre ++ "${" ++ x)).
    cbn [GoSlices.Index]. rewrite (HasPrefix_dollar c pre x H).
    cbn [GoStrings.Contains] in H. apply orb_false_iff in H as [_ H].
    rewrite (IH H).
    destruct (Z.eqb_spec (Z.of_nat (String.length pre)) (-1)); [lia |].
    cbn [String.length]. lia.
Qed.

Lemma slice_mid (a b c : string) :
  GoSlices.slice (a ++ b ++ c) (Z.of_nat (String.length a))
    (Z.of_nat (String.length a) + Z.of_nat (String.length b)) = Returns b.
Proof.
  unfold GoSlices.slice. rewrite !length_append.
  replace ((0 <=? _) && _ && _) with true
    by (symmetry; rewrite !andb_true_iff, !Z.leb_le; lia).
  rewrite Nat2Z.id, skip_append.
  replace (Z.to_nat _) with (String.length b) by lia.
  now rewrite take_append.
Qed.

End envexpand_facts.

(** [expandEnvVariables] on a text with at most one reference.  A text
    without [${] is returned as it is, and so is a text whose first [${]
    is not followed by a closing brace.  In a text with one reference
    [${name}] the reference is replaced by the value of the variable,
    provided the text so obtained holds no [${] (none in the value, none
    where the value meets what follows it).  The loop ends after one
    iteration in the first two cases and after two in the third, and no
    slice goes out of range. *)
Theorem expandEnvVariables_one_reference (Getenv : string -> string) (fuel : nat) :
  (forall s : string,
     GoStrings.Contains s "${" = false ->
     envexpand.expandEnvVariables Getenv (S fuel) s = Some (Returns s))
  /\ (forall before rest : string,
        GoStrings.Contains before "${" = false ->
        GoStrings.Contains rest "}" = false ->
        envexpand.expandEnvVariables Getenv (S fuel) (before ++ "${" ++ rest)
        = Some (Returns (before ++ "${" ++ rest)))
  /\ (forall before name after : string,
        GoStrings.Contains before "${" = false ->
        GoStrings.Contains name "}" = false ->
        GoStrings.Contains (before ++ Getenv name ++ after) "${" = false ->
        envexpand.expandEnvVariables Getenv (S (S fuel))
          (before ++ "${" ++ name ++ "}" ++ after)
        = Some (Returns (before ++ Getenv name ++ after))).
Proof.
  assert (Hplain : forall s : string,
             GoStrings.Contains s "${" = false ->
             envexpand.expandEnvVariables Getenv (S fuel) s = Some (Returns s)).
  { intros s H. unfold envexpand.expandEnvVariables. cbn [envexpand.expand_loop].
    now rewrite (Index_none "${" s H). }
  split; [exact Hplain | split].
  - intros before rest Hbefore Hrest.
    unfold envexpand.expandEnvVariables. cbn [envexpand.expand_loop].
    rewrite (Index_dollar_first before rest Hbefore).
    destruct (Z.eqb_spec (Z.of_nat (String.length before)) (-1)); [lia |].
    rewrite (slice_from before ("${" ++ rest)).
    rewrite (Index_none "}" ("${" ++ rest)); [reflexivity |].
    change ("${" ++ rest) with (String "$" (String "{" rest)).
    now rewrite !Contains_byte, Hrest.
  - intros before name after Hbefore Hname Hresult.
    unfold envexpand.expandEnvVariables.
    change (envexpand.expand_loop Getenv (S (S fuel)) ?s)
      with (envexpand.expand_loop Getenv (S (S fuel)) s).
    remember (S fuel) as fuel1 eqn:Hfuel.
    cbn [envexpand.expand_loop].
    rewrite (Index_dollar_first before (name ++ "}" ++ after) Hbefore).
    destruct (Z.eqb_spec (Z.of_nat (String.length before)) (-1)); [lia |].
    rewrite (slice_from before ("${" ++ name ++ "}" ++ after)).
    assert (Hclose : GoSlices.Index ("${" ++ name ++ "}" ++ after) "}"
                     = Z.of_nat (String.length ("${" ++ name))).
    { rewrite <- (Index_byte_first "}" ("${" ++ name) after).
      - now rewrite !append_assoc.
      - change ("${" ++ name) with (String "$" (String "{" name)).
        now rewrite !Contains_byte, Hname. }
    rewrite Hclose.
    destruct (Z.eqb_spec (Z.of_nat (String.length ("${" ++ name))) (-1)); [lia |].
    replace (Z.of_nat (String.length before) + 2)
      with (Z.of_nat (String.length (before ++ "${"))) by (rewrite length_append; simpl; lia).
    replace (Z.of_nat (String.length ("${" ++ name)) + Z.of_nat (String.length before))
      with (Z.of_nat (String.length (before ++ "${")) + Z.of_nat (String.length name))
      by (rewrite !length_append; simpl; lia).
    replace (before ++ "${" ++ name ++ "}" ++ after)
      with ((before ++ "${") ++ name ++ "}" ++ after) at 1 by now rewrite !append_assoc.
    rewrite (slice_mid (before ++ "${") name ("}" ++ after)).
    rewrite (slice_to before ("${" ++ name ++ "}" ++ after)).
    replace (Z.of_nat (String.length (before ++ "${")) + Z.of_nat (String.length name) + 1)
      with (Z.of_nat (String.length (before ++ "${" ++ name ++ "}")))
      by (rewrite !length_append; simpl; lia).
    replace (before ++ "${" ++ name ++ "}" ++ after)
      with ((before ++ "${" ++ name ++ "}") ++ after) by now rewrite !append_assoc.
    rewrite (slice_from (before ++ "${" ++ name ++ "}") after).
    subst fuel1. exact (Hplain _ Hresult).
Qed.

Lemma expandEnvVariables_one_reference_witness :
  envexpand.expandEnvVariables
    (fun name => if String.eqb name "TEST_SWITCH_PASSWORD_1" then "s3cret" else "")
    2 ("password=" ++ "${" ++ "TEST_SWITCH_PASSWORD_1" ++ "}" ++ ";model=GS308EP")
  = Some (Returns ("password=" ++ "s3cret" ++ ";model=GS308EP")).
Proof.
  destruct (expandEnvVariables_one_reference
              (fun name => if String.eqb name "TEST_SWITCH_PASSWORD_1" then "s3cret" else "")
              0) as (_ & _ & Hone).
  apply (Hone "password=" "TEST_SWITCH_PASSWORD_1" ";model=GS308EP");
    vm_compute; reflexivity.
Defined.
